(** * Task-space regions: a shallow embedding of [prpy/tsr/tsr.py]

    The development follows the source file top to bottom: the numeric
    constants, the class [TSR] and the class [TSRChain].  Python objects
    live in a store and are reached through references, because
    [TSRChain.to_transform] assigns to the [T0_w] attribute of the objects
    its list holds.

    Numbers.  A Python float is modelled by an exact rational or by [nan];
    rounding and the infinities are left out.  [math.pi] has no decimal
    literal: it is the double [0x1.921fb54442d18p+1], taken at its exact
    value.  Literals such as [0.001] are taken at their decimal value.
    A statement made for every box of a kind keeps the bounds a margin
    away from the ends of a turn and of moderate magnitude, where the
    tolerance [EPSILON] exceeds what rounding can move. *)

From Stdlib Require Import QArith Qround Qabs Lqa ZArith Lia String List Bool.
From stdpp Require Import base list.

Set Default Proof Using "Type".
Open Scope string_scope.

(** ** Floats *)

Inductive float : Type :=
| nan
| fin (q : Q).

Declare Scope float_scope.
Delimit Scope float_scope with F.
Bind Scope float_scope with float.

Definition isnan (x : float) : bool :=
  match x with nan => true | fin _ => false end.

Definition lift2 (op : Q -> Q -> Q) (x y : float) : float :=
  match x, y with
  | fin a, fin b => fin (op a b)
  | _, _ => nan
  end.

Definition fadd := lift2 Qplus.
Definition fsub := lift2 Qminus.
Definition fmul := lift2 Qmult.

(** True division; a zero divisor gives [nan] here (numpy gives an infinity
    or [nan], with a warning). *)
Definition fdiv (x y : float) : float :=
  match x, y with
  | fin a, fin b => if Qeq_bool b 0 then nan else fin (a / b)
  | _, _ => nan
  end.

(** [a % m] on floats is the floored remainder, with the sign of [m]. *)
Definition Qmod (a m : Q) : Q := (a - m * inject_Z (Qfloor (a / m)))%Q.

Definition fmod (x y : float) : float :=
  match x, y with
  | fin a, fin m => if Qeq_bool m 0 then nan else fin (Qmod a m)
  | _, _ => nan
  end.

(** Comparisons: every comparison with [nan] is false. *)
Definition fle (x y : float) : bool :=
  match x, y with
  | fin a, fin b => Qle_bool a b
  | _, _ => false
  end.

Definition fge (x y : float) : bool := fle y x.

Definition fgt (x y : float) : bool :=
  match x, y with
  | fin a, fin b => negb (Qle_bool a b)
  | _, _ => false
  end.

Definition flt (x y : float) : bool := fgt y x.

Infix "+" := fadd : float_scope.
Infix "-" := fsub : float_scope.
Infix "*" := fmul : float_scope.
Infix "/" := fdiv : float_scope.
Infix "mod" := fmod (at level 40, no associativity) : float_scope.
Infix ">=?" := fge (at level 70, no associativity) : float_scope.
Infix "<=?" := fle (at level 70, no associativity) : float_scope.
Infix ">?" := fgt (at level 70, no associativity) : float_scope.

(** [math.pi] *)
Definition Qpi : Q := 884279719003555 # 281474976710656.
Definition pi : float := fin Qpi.

(** [EPSILON = 0.001] *)
Definition EPSILON : float := fin (1 # 1000).

Definition two : float := fin 2.

(** ** Exceptions *)

(** The exception classes the file raises or lets through.  [InvalidRef] is
    not a Python exception: it is the answer of the store to a reference
    that was never allocated, which no Python execution holds. *)
Inductive exn : Type :=
| ValueError (msg : string)
| TypeError (msg : string)
| IndexError (msg : string)
| KeyError (key : string)
| LinAlgError (msg : string)
| InvalidRef.

Inductive exc (A : Type) : Type :=
| Ok (a : A)
| Raise (e : exn).

Arguments Ok {A} a.
Arguments Raise {A} e.

#[global] Instance exc_ret : MRet exc := fun A a => Ok a.

#[global] Instance exc_bind : MBind exc := fun A B f m =>
  match m with
  | Ok a => f a
  | Raise e => Raise e
  end.

#[global] Instance exc_fmap : FMap exc := fun A B f m =>
  match m with
  | Ok a => Ok (f a)
  | Raise e => Raise e
  end.

Definition is_ok {A} (m : exc A) : bool :=
  match m with Ok _ => true | Raise _ => false end.

(** ** Python and numpy built-ins *)

(** [all(xs)] *)
Definition all (xs : list bool) : bool := forallb id xs.

(** [any(xs)] *)
Definition any (xs : list bool) : bool := existsb id xs.

(** The truth value of a numpy array, as [if a:] and [not a] ask for it: an
    array with more than one element refuses to answer. *)
Definition ndarray_bool (a : list bool) : exc bool :=
  match a with
  | [] => Ok false
  | [b] => Ok b
  | _ :: _ :: _ =>
      Raise (ValueError
        "The truth value of an array with more than one element is ambiguous. Use a.any() or a.all()")
  end.

(** [check[mask] = True] for a boolean [mask]: the mask must be as long as
    the array. *)
Definition masked (c m : bool) : bool := if m then true else c.

Definition mask_assign_true (check mask : list bool) : exc (list bool) :=
  if Nat.eqb (length mask) (length check)
  then Ok (zip_with masked check mask)
  else Raise (IndexError "boolean index did not match indexed array along axis 0").

(** ** Arrays of fixed shape *)

(** A row of [Bw]: [min, max]. *)
Definition row : Type := float * float.

(** A numpy array of shape [(6, 2)], as [numpy.zeros((6, 2))] makes it. *)
Record array6x2 : Type := Array6x2 {
  row0 : row; row1 : row; row2 : row;
  row3 : row; row4 : row; row5 : row
}.

Definition rows (b : array6x2) : list row :=
  [row0 b; row1 b; row2 b; row3 b; row4 b; row5 b].

Definition zeros6x2 : array6x2 :=
  let z := (fin 0, fin 0) in Array6x2 z z z z z z.

(** A numpy array of shape [(4, 4)], as [numpy.eye(4)] makes it. *)
Definition vec4 : Type := float * float * float * float.
Definition Transform : Type := vec4 * vec4 * vec4 * vec4.

Definition eye4 : Transform :=
  let o := fin 1 in let z := fin 0 in
  ((o, z, z, z), (z, o, z, z), (z, z, o, z), (z, z, z, o)).

Definition inner (u v : vec4) : float :=
  let '(u0, u1, u2, u3) := u in
  let '(v0, v1, v2, v3) := v in
  (u0 * v0 + u1 * v1 + u2 * v2 + u3 * v3)%F.

Definition transpose (m : Transform) : Transform :=
  let '((a0, a1, a2, a3), (b0, b1, b2, b3), (c0, c1, c2, c3), (d0, d1, d2, d3)) := m in
  ((a0, b0, c0, d0), (a1, b1, c1, d1), (a2, b2, c2, d2), (a3, b3, c3, d3)).

(** [numpy.dot] on two 4x4 arrays. *)
Definition dot (a b : Transform) : Transform :=
  let '(r0, r1, r2, r3) := a in
  let '(c0, c1, c2, c3) := transpose b in
  let line r := (inner r c0, inner r c1, inner r c2, inner r c3) in
  (line r0, line r1, line r2, line r3).

(** [l[i]] on a Python list. *)
Definition getitem {A} (l : list A) (i : nat) : exc A :=
  match l !! i with
  | Some a => Ok a
  | None => Raise (IndexError "list index out of range")
  end.

(** ** Plain documents: what [to_dict] builds and the text encoders carry *)

#[local] Unset Elimination Schemes.
Inductive value : Type :=
| VFloat (x : float)
| VInt (z : Z)
| VStr (s : string)
| VBool (b : bool)
| VList (l : list value)
| VDict (d : list (string * value)).
#[local] Set Elimination Schemes.

(** [d[k]] on a dict, kept as the list of its items. *)
Fixpoint dict_getitem (d : list (string * value)) (k : string) : exc value :=
  match d with
  | [] => Raise (KeyError k)
  | (k', v) :: d' => if String.eqb k' k then Ok v else dict_getitem d' k
  end.

(** [d.get(k, default)] *)
Definition dict_get (d : list (string * value)) (k : string) (default : value) : value :=
  match dict_getitem d k with
  | Ok v => v
  | Raise _ => default
  end.

(** [x[k]] where [x] is any document: only a dict has string keys. *)
Definition subscript (x : value) (k : string) : exc value :=
  match x with
  | VDict d => dict_getitem d k
  | _ => Raise (TypeError "indices must be integers")
  end.

(** [x.get(k, default)] where [x] is any document. *)
Definition get (x : value) (k : string) (default : value) : exc value :=
  match x with
  | VDict d => Ok (dict_get d k default)
  | _ => Raise (TypeError "object has no attribute 'get'")
  end.

(** [a.tolist()] on the two array shapes. *)
Definition vec4_tolist (v : vec4) : value :=
  let '(a, b, c, d) := v in VList [VFloat a; VFloat b; VFloat c; VFloat d].

Definition Transform_tolist (m : Transform) : value :=
  let '(r0, r1, r2, r3) := m in
  VList [vec4_tolist r0; vec4_tolist r1; vec4_tolist r2; vec4_tolist r3].

Definition row_tolist (r : row) : value :=
  VList [VFloat (fst r); VFloat (snd r)].

Definition array6x2_tolist (b : array6x2) : value :=
  VList (row_tolist <$> rows b).

(** [numpy.array(v)] read at one of the two shapes.  numpy itself accepts a
    nested list of any shape and the failure comes at the first use; with
    arrays of fixed shape it comes here. *)
Definition shape_error {A} : exc A :=
  Raise (ValueError "array of unexpected shape").

Definition array_vec4 (v : value) : exc vec4 :=
  match v with
  | VList [VFloat a; VFloat b; VFloat c; VFloat d] => Ok (a, b, c, d)
  | _ => shape_error
  end.

Definition array4x4 (v : value) : exc Transform :=
  match v with
  | VList [v0; v1; v2; v3] =>
      r0 ← array_vec4 v0; r1 ← array_vec4 v1;
      r2 ← array_vec4 v2; r3 ← array_vec4 v3;
      Ok (r0, r1, r2, r3)
  | _ => shape_error
  end.

Definition array_row (v : value) : exc row :=
  match v with
  | VList [VFloat a; VFloat b] => Ok (a, b)
  | _ => shape_error
  end.

Definition array6x2_of (v : value) : exc array6x2 :=
  match v with
  | VList [v0; v1; v2; v3; v4; v5] =>
      r0 ← array_row v0; r1 ← array_row v1; r2 ← array_row v2;
      r3 ← array_row v3; r4 ← array_row v4; r5 ← array_row v5;
      Ok (Array6x2 r0 r1 r2 r3 r4 r5)
  | _ => shape_error
  end.

(** An integer attribute is a Python [int] or, after [numpy.array(i)], a
    0-d integer array; likewise for a string. *)
Inductive intlike : Type :=
| PyInt (z : Z)
| NdInt (z : Z).

Inductive strlike : Type :=
| PyStr (s : string)
| NdStr (s : string).

(** [int(i)] and [str(s)] *)
Definition int_ (i : intlike) : Z :=
  match i with PyInt z | NdInt z => z end.

Definition str_ (s : strlike) : string :=
  match s with PyStr s | NdStr s => s end.

(** [numpy.array(v)] for a scalar document.  Documents of another type are
    outside what the attributes above can hold. *)
Definition array_int (v : value) : exc intlike :=
  match v with
  | VInt z => Ok (NdInt z)
  | _ => Raise (TypeError "manipindex is not an integer")
  end.

Definition array_str (v : value) : exc strlike :=
  match v with
  | VStr s => Ok (NdStr s)
  | _ => Raise (TypeError "bodyandlink is not a string")
  end.

(** The text encoders are library code ([json], [yaml]).  A text is
    identified with the document it encodes, so that decoding inverts
    encoding; malformed texts are not represented. *)
Inductive json_text : Type := JsonText (doc : value).
Inductive yaml_text : Type := YamlText (doc : value).

Definition json_dumps (v : value) : json_text := JsonText v.
Definition json_loads (s : json_text) : exc value := let 'JsonText v := s in Ok v.
Definition yaml_dump (v : value) : yaml_text := YamlText v.
Definition yaml_safe_load (s : yaml_text) : exc value := let 'YamlText v := s in Ok v.

(** ** Collaborators

    [kin], [numpy.linalg], [prpy.util] and [numpy.random] are not part of
    the file; the class below is their interface as [tsr.py] uses it. *)

Definition quat : Type := vec4.
Definition pose : Type := (float * float * float) * quat.

Class Collaborators : Type := {
  (** [kin.pose_from_xyzypr] *)
  kin_pose_from_xyzypr : list float -> pose;
  (** [kin.pose_to_H] *)
  kin_pose_to_H : pose -> Transform;
  (** [kin.pose_from_H] *)
  kin_pose_from_H : Transform -> pose;
  (** [kin.quat_to_ypr]: yaw, pitch, roll *)
  kin_quat_to_ypr : quat -> float * float * float;
  (** [numpy.linalg.inv], which raises [LinAlgError] on a singular matrix *)
  linalg_inv : Transform -> exc Transform;
  (** [prpy.util.GeodesicDistance] *)
  GeodesicDistance : Transform -> Transform -> float;
  (** The draws of [numpy.random.random_sample()], in order, each in
      [[0, 1)]; the state of the generator is the number of draws made. *)
  random_sample : nat -> Q;
  random_sample_range : forall n, (0 <= random_sample n)%Q /\ (random_sample n < 1)%Q
}.

(** [scipy.optimize.fmin_l_bfgs_b(objective, x0, bounds=..., approx_grad=True)],
    returning [(x, f)]; the objective may raise and may change a state of
    type [S], and an exception of the objective passes through. *)
Definition optimizer : Type :=
  forall S : Type,
    (list float -> S -> exc float * S) -> list float -> list row -> S ->
    exc (list float * float) * S.

(** An optimizer that evaluates its objective at the initial guess before
    anything else, as L-BFGS-B does: an exception raised there is the
    outcome of the call. *)
Definition evaluates_initial_guess (opt : optimizer) : Prop :=
  forall (S : Type) (objective : list float -> S -> exc float * S)
         (x0 : list float) (bounds : list row) (s s' : S) (e : exn),
    objective x0 s = (Raise e, s') ->
    opt S objective x0 bounds s = (Raise e, s').

(** ** class TSR *)

Module TSR.

(** The attributes of a TSR object. *)
Record t : Type := Build {
  T0_w : Transform;
  Tw_e : Transform;
  Bw : array6x2;
  manipindex : intlike;
  bodyandlink : strlike
}.

(** The [manip] argument of the constructor: [None], a robot (of which only
    the active manipulator index is read) or anything else, stored as is. *)
Inductive manip_arg : Type :=
| ManipNone
| ManipRobot (active_manipulator_index : Z)
| ManipIndex (i : intlike).

(** [(Bw[:, 1] - Bw[:, 0]) > 2*pi + EPSILON], one boolean per row. *)
Definition range_exceeds (r : row) : bool :=
  (snd r - fst r >? two * pi + EPSILON)%F.

Definition __init__ (T0_w Tw_e : option Transform) (Bw : option array6x2)
    (manip : manip_arg) (bodyandlink : strlike) : exc t :=
  let T0_w := default eye4 T0_w in
  let Tw_e := default eye4 Tw_e in
  Bw ← match Bw with
       | None => Ok zeros6x2
       | Some Bw =>
           if any (range_exceeds <$> rows Bw)
           then Raise (ValueError "Bw range must be within 2*PI")
           else Ok Bw
       end;
  let manipindex :=
    match manip with
    | ManipNone => PyInt (-1)
    | ManipRobot i => PyInt i
    | ManipIndex i => i
    end in
  Ok (Build T0_w Tw_e Bw manipindex bodyandlink).

(** [(x + EPSILON) >= lo and (x - EPSILON) <= hi] *)
Definition within (x : float) (r : row) : bool :=
  ((x + EPSILON >=? fst r) && (x - EPSILON <=? snd r))%F.

(** [(a + pi) % (2*pi) - pi] *)
Definition unwrap (a : float) : float :=
  ((a + pi) mod (two * pi) - pi)%F.

Definition unwrap_row (r : row) : row := (unwrap (fst r), unwrap (snd r)).

(** The two comprehensions index the rows of [Bw] by the position in the
    slice of [xyzrpy]; a slice has at most three elements and the slice of
    [Bw] exactly three rows, so this is [zip_with]. *)
Definition is_valid (self : t) (xyzrpy : list float) (ignoreNAN : bool) : exc (list bool) :=
  let Bw_xyz := take 3 (rows (Bw self)) in
  let xyzcheck := zip_with within (take 3 xyzrpy) Bw_xyz in
  let Bw_rpy := unwrap_row <$> take 3 (drop 3 (rows (Bw self))) in
  let rpy := unwrap <$> take 3 (drop 3 xyzrpy) in
  let rpycheck := zip_with within rpy Bw_rpy in
  let check := (xyzcheck ++ rpycheck)%list in
  if ignoreNAN then mask_assign_true check (isnan <$> xyzrpy) else Ok check.

Section WithCollaborators.

Context {K : Collaborators}.
Variable fmin_l_bfgs_b : optimizer.

Definition to_transform (self : t) (xyzrpy : list float) : exc Transform :=
  if negb (Nat.eqb (length xyzrpy) 6) then Raise (ValueError "vals must be of length 6")
  else
    check ← is_valid self xyzrpy false;
    valid ← ndarray_bool check;
    if negb valid then Raise (ValueError "Invalid xyzrpy")
    else
      x ← getitem xyzrpy 0; y ← getitem xyzrpy 1; z ← getitem xyzrpy 2;
      yaw ← getitem xyzrpy 5; pitch ← getitem xyzrpy 4; roll ← getitem xyzrpy 3;
      let xyzypr := [x; y; z; yaw; pitch; roll] in
      let Tw := kin_pose_to_H (kin_pose_from_xyzypr xyzypr) in
      Ok (dot (dot (T0_w self) Tw) (Tw_e self)).

Definition to_xyzrpy (self : t) (trans : Transform) : exc (list float) :=
  inv0 ← linalg_inv (T0_w self);
  inve ← linalg_inv (Tw_e self);
  let Tw := dot (dot inv0 trans) inve in
  let '((px, py, pz), q) := kin_pose_from_H Tw in
  let '(yaw, pitch, roll) := kin_quat_to_ypr q in
  Ok [px; py; pz; roll; pitch; yaw].

Definition contains (self : t) (trans : Transform) : exc (list bool) :=
  xyzrpy ← to_xyzrpy self trans;
  is_valid self xyzrpy false.

(** The objective handed to the optimizer by [distance]. *)
Definition objective (self : t) (trans : Transform) (bw : list float) (s : unit) : exc float * unit :=
  (bwtrans ← to_transform self bw; Ok (GeodesicDistance bwtrans trans), s).

Definition distance (self : t) (trans : Transform) : exc (float * list float) :=
  inside ← contains self trans;
  if all inside then
    xyzrpy ← to_xyzrpy self trans;
    Ok (fin 0, xyzrpy)
  else
    let bwinit := (fun r : row => (fst r + snd r) / two)%F <$> rows (Bw self) in
    let bwbounds := rows (Bw self) in
    '(bwopt, dist) ← fst (fmin_l_bfgs_b unit (objective self trans) bwinit bwbounds tt);
    Ok (dist, bwopt).

(** The comprehension of [sample_xyzrpy], from position [i] on; [g] is the
    state of the generator. *)
Fixpoint sample_from (self : t) (i : nat) (xyzrpy : list float) (g : nat) : exc (list float) * nat :=
  match xyzrpy with
  | [] => (Ok [], g)
  | x :: rest =>
      if isnan x then
        match getitem (rows (Bw self)) i with
        | Raise e => (Raise e, g)
        | Ok r =>
            let v := (fst r + (snd r - fst r) * fin (random_sample g))%F in
            let '(out, g') := sample_from self (S i) rest (S g) in
            (cons v <$> out, g')
        end
      else
        let '(out, g') := sample_from self (S i) rest g in
        (cons x <$> out, g')
  end.

Definition sample_xyzrpy (self : t) (xyzrpy : list float) (g : nat) : exc (list float) * nat :=
  match is_valid self xyzrpy true with
  | Raise e => (Raise e, g)
  | Ok check =>
      if negb (all check) then (Raise (ValueError "xyzrpy must be within bounds"), g)
      else sample_from self 0 xyzrpy g
  end.

Definition sample (self : t) (xyzrpy : list float) (g : nat) : exc Transform * nat :=
  let '(s, g') := sample_xyzrpy self xyzrpy g in
  (s ≫= to_transform self, g').

End WithCollaborators.

(** [NANBW = numpy.ones(6)*float('nan')], the default argument of the two
    sampling methods. *)
Definition NANBW : list float := replicate 6 nan.

Definition to_dict (self : t) : value :=
  VDict [
    ("T0_w", Transform_tolist (T0_w self));
    ("Tw_e", Transform_tolist (Tw_e self));
    ("Bw", array6x2_tolist (Bw self));
    ("manipindex", VInt (int_ (manipindex self)));
    ("bodyandlink", VStr (str_ (bodyandlink self)))
  ].

Definition from_dict (x : value) : exc t :=
  v ← subscript x "T0_w"; T0_w ← array4x4 v;
  v ← subscript x "Tw_e"; Tw_e ← array4x4 v;
  v ← subscript x "Bw"; Bw ← array6x2_of v;
  v ← get x "manipindex" (VInt (-1)); manip ← array_int v;
  v ← get x "bodyandlink" (VStr "NULL"); bodyandlink ← array_str v;
  __init__ (Some T0_w) (Some Tw_e) (Some Bw) (ManipIndex manip) bodyandlink.

Definition to_json (self : t) : json_text := json_dumps (to_dict self).

Definition from_json (x : json_text) : exc t :=
  x_dict ← json_loads x; from_dict x_dict.

Definition to_yaml (self : t) : yaml_text := yaml_dump (to_dict self).

Definition from_yaml (x : yaml_text) : exc t :=
  x_dict ← yaml_safe_load x; from_dict x_dict.

End TSR.

(** ** The object store *)

(** TSR objects are reached through references; a chain holds references,
    so two positions of a chain, or two chains, may hold one object. *)
Abbreviation ref := nat (only parsing).
Abbreviation store := (list TSR.t) (only parsing).

Definition deref (h : store) (r : ref) : exc TSR.t :=
  match h !! r with
  | Some o => Ok o
  | None => Raise InvalidRef
  end.

(** [o.T0_w = T] *)
Definition set_T0_w (o : TSR.t) (T : Transform) : TSR.t :=
  TSR.Build T (TSR.Tw_e o) (TSR.Bw o) (TSR.manipindex o) (TSR.bodyandlink o).

(** A new object: its reference is the next free position. *)
Definition alloc (h : store) (o : TSR.t) : ref * store :=
  (length h, (h ++ [o])%list).

(** [a.reshape(n, 6)] on a flat array. *)
Fixpoint chunks6 (n : nat) (a : list float) : list (list float) :=
  match n with
  | O => []
  | S n' => take 6 a :: chunks6 n' (drop 6 a)
  end.

Definition reshape (a : list float) (n : nat) : exc (list (list float)) :=
  if Nat.eqb (length a) (n * 6) then Ok (chunks6 n a)
  else Raise (ValueError "cannot reshape array").

(** ** class TSRChain *)

Module TSRChain.

Record t : Type := Build {
  sample_start : bool;
  sample_goal : bool;
  constrain : bool;
  mimicbodyname : string;
  mimicbodyjoints : list Z;
  TSRs : list ref
}.

(** [self.TSRs.append(tsr)] *)
Definition append (self : t) (tsr : ref) : t :=
  Build (sample_start self) (sample_goal self) (constrain self)
        (mimicbodyname self) (mimicbodyjoints self) (TSRs self ++ [tsr])%list.

Definition __init__ (sample_start sample_goal constrain : bool)
    (TSR : option ref) (TSRs : option (list ref))
    (mimicbodyname : string) (mimicbodyjoints : option (list Z)) : t :=
  let self := Build sample_start sample_goal constrain mimicbodyname
                    (default [] mimicbodyjoints) [] in
  let self := match TSR with Some r => append self r | None => self end in
  match TSRs with
  | Some rs => foldl append self rs
  | None => self
  end.

Section WithStore.

Context {K : Collaborators}.
Variable fmin_l_bfgs_b : optimizer.

(** [self.TSRs[idx]], the object itself. *)
Definition tsr_at (h : store) (self : t) (idx : nat) : exc TSR.t :=
  r ← getitem (TSRs self) idx; deref h r.

(** Raising a [str] is itself a [TypeError]: the message of the source is
    never seen. *)
Definition is_valid (h : store) (self : t) (xyzrpy : list (list float)) (ignoreNAN : bool)
    : exc (list (list bool)) :=
  if negb (Nat.eqb (length xyzrpy) (length (TSRs self)))
  then Raise (TypeError "exceptions must derive from BaseException")
  else
    mapM (fun idx =>
            tsr ← tsr_at h self idx;
            x ← getitem xyzrpy idx;
            TSR.is_valid tsr x ignoreNAN)
         (seq 0 (length (TSRs self))).

(** The second loop of [to_transform], over the indices [idxs] still to
    visit, with the running transform [T0_w]. *)
Fixpoint chain_from (self : t) (xyzrpy : list (list float)) (idxs : list nat)
    (T0_w : Transform) (h : store) : exc Transform * store :=
  match idxs with
  | [] => (Ok T0_w, h)
  | idx :: rest =>
      match getitem (TSRs self) idx with
      | Raise e => (Raise e, h)
      | Ok r =>
          match deref h r with
          | Raise e => (Raise e, h)
          | Ok tsr_current =>
              let tsr_current := set_T0_w tsr_current T0_w in
              let h := <[r := tsr_current]> h in
              match x ← getitem xyzrpy idx; TSR.to_transform tsr_current x with
              | Raise e => (Raise e, h)
              | Ok T => chain_from self xyzrpy rest T h
              end
          end
      end
  end.

Definition to_transform (h : store) (self : t) (xyzrpy : list (list float))
    : exc Transform * store :=
  let n := length (TSRs self) in
  let checked :=
    check ← is_valid h self xyzrpy false;
    mapM (fun idx =>
            c ← getitem check idx;
            if negb (all c) then Raise (ValueError "Invalid xyzrpy") else Ok tt)
         (seq 0 n) in
  match checked with
  | Raise e => (Raise e, h)
  | Ok _ =>
      match tsr_at h self 0 with
      | Raise e => (Raise e, h)
      | Ok first => chain_from self xyzrpy (seq 0 n) (TSR.T0_w first) h
      end
  end.

(** The loop of [sample_xyzrpy]; [g] is the state of the generator. *)
Fixpoint sample_each (h : store) (self : t) (xyzrpy : list (list float))
    (idxs : list nat) (g : nat) : exc (list (list float)) * nat :=
  match idxs with
  | [] => (Ok [], g)
  | idx :: rest =>
      match tsr ← tsr_at h self idx; x ← getitem xyzrpy idx; Ok (tsr, x) with
      | Raise e => (Raise e, g)
      | Ok (tsr, x) =>
          match TSR.sample_xyzrpy tsr x g with
          | (Raise e, g') => (Raise e, g')
          | (Ok s, g') =>
              let '(out, g'') := sample_each h self xyzrpy rest g' in
              (cons s <$> out, g'')
          end
      end
  end.

Definition sample_xyzrpy (h : store) (self : t) (xyzrpy : option (list (list float)))
    (g : nat) : exc (list (list float)) * nat :=
  let n := length (TSRs self) in
  let xyzrpy := default (replicate n TSR.NANBW) xyzrpy in
  sample_each h self xyzrpy (seq 0 n) g.

Definition sample (h : store) (self : t) (xyzrpy : option (list (list float)))
    (g : nat) : exc Transform * store * nat :=
  match sample_xyzrpy h self xyzrpy g with
  | (Raise e, g') => (Raise e, h, g')
  | (Ok s, g') => (to_transform h self s, g')
  end.

(** The objective handed to the optimizer by [distance]; it runs
    [to_transform], so it writes to the store. *)
Definition objective (self : t) (trans : Transform) (xyzrpy : list float) (h : store)
    : exc float * store :=
  match reshape xyzrpy (length (TSRs self)) with
  | Raise e => (Raise e, h)
  | Ok bw_stack =>
      let '(bwtrans, h') := to_transform h self bw_stack in
      ((fun T => GeodesicDistance T trans) <$> bwtrans, h')
  end.

Definition distance (h : store) (self : t) (trans : Transform)
    : exc (float * list (list float)) * store :=
  let n := length (TSRs self) in
  match mapM (fun idx => TSR.Bw <$> tsr_at h self idx) (seq 0 n) with
  | Raise e => (Raise e, h)
  | Ok Bws =>
      let bwinit := concat ((fun Bw => (fun r : row => (fst r + snd r) / two)%F <$> rows Bw) <$> Bws) in
      let bwbounds := concat (rows <$> Bws) in
      match fmin_l_bfgs_b store (objective self trans) bwinit bwbounds h with
      | (Raise e, h') => (Raise e, h')
      | (Ok (bwopt, dist), h') =>
          ((fun s => (dist, s)) <$> reshape bwopt n, h')
      end
  end.

(** [abs(dist) < EPSILON] *)
Definition fabs (x : float) : float :=
  match x with
  | nan => nan
  | fin q => fin (Qabs q)
  end.

Definition contains (h : store) (self : t) (trans : Transform) : exc bool * store :=
  let '(d, h') := distance h self trans in
  ((fun p => flt (fabs (fst p)) EPSILON) <$> d, h').

Definition to_xyzrpy (h : store) (self : t) (trans : Transform)
    : exc (list (list float)) * store :=
  let '(d, h') := distance h self trans in
  (snd <$> d, h').

End WithStore.

Definition to_dict (h : store) (self : t) : exc value :=
  tsrs ← mapM (fun r => TSR.to_dict <$> deref h r) (TSRs self);
  Ok (VDict [
    ("sample_goal", VBool (sample_goal self));
    ("sample_start", VBool (sample_start self));
    ("constrain", VBool (constrain self));
    ("mimicbodyname", VStr (mimicbodyname self));
    ("mimicbodyjoints", VList (VInt <$> mimicbodyjoints self));
    ("tsrs", VList tsrs)
  ]).

(** The documents read back at the types of the attributes; a document of
    another type is outside what the record can hold. *)
Definition as_bool (v : value) : exc bool :=
  match v with VBool b => Ok b | _ => Raise (TypeError "not a bool") end.

Definition as_str (v : value) : exc string :=
  match v with VStr s => Ok s | _ => Raise (TypeError "not a string") end.

Definition as_int (v : value) : exc Z :=
  match v with VInt z => Ok z | _ => Raise (TypeError "not an integer") end.

Definition as_list (v : value) : exc (list value) :=
  match v with VList l => Ok l | _ => Raise (TypeError "object is not iterable") end.

(** [[TSR.from_dict(tsr) for tsr in x['tsrs']]]: each new object goes to
    the store. *)
Fixpoint from_dicts (docs : list value) (h : store) : exc (list ref) * store :=
  match docs with
  | [] => (Ok [], h)
  | d :: rest =>
      match TSR.from_dict d with
      | Raise e => (Raise e, h)
      | Ok o =>
          let '(r, h') := alloc h o in
          let '(out, h'') := from_dicts rest h' in
          (cons r <$> out, h'')
      end
  end.

Definition from_dict (x : value) (h : store) : exc t * store :=
  let header :=
    v ← subscript x "sample_start"; sample_start ← as_bool v;
    v ← subscript x "sample_goal"; sample_goal ← as_bool v;
    v ← subscript x "constrain"; constrain ← as_bool v;
    v ← subscript x "tsrs"; docs ← as_list v;
    Ok (sample_start, sample_goal, constrain, docs) in
  match header with
  | Raise e => (Raise e, h)
  | Ok (sample_start, sample_goal, constrain, docs) =>
      match from_dicts docs h with
      | (Raise e, h') => (Raise e, h')
      | (Ok rs, h') =>
          let trailer :=
            v ← subscript x "mimicbodyname"; mimicbodyname ← as_str v;
            v ← subscript x "mimicbodyjoints"; js ← as_list v;
            mimicbodyjoints ← mapM as_int js;
            Ok (__init__ sample_start sample_goal constrain None (Some rs)
                         mimicbodyname (Some mimicbodyjoints)) in
          (trailer, h')
      end
  end.

Definition to_json (h : store) (self : t) : exc json_text :=
  json_dumps <$> to_dict h self.

(** The source hands the document to [TSR.from_dict]; what comes back, if
    anything, is a TSR and not a chain. *)
Definition from_json (x : json_text) : exc TSR.t :=
  x_dict ← json_loads x; TSR.from_dict x_dict.

Definition to_yaml (h : store) (self : t) : exc yaml_text :=
  yaml_dump <$> to_dict h self.

Definition from_yaml (x : yaml_text) : exc TSR.t :=
  x_dict ← yaml_safe_load x; TSR.from_dict x_dict.

End TSRChain.

(** ** An instance of the collaborators, to run the definitions

    Exact on pure translations: rotations are the identity throughout.  The
    generator always draws one half, and the optimizer stops at its
    initial guess. *)

Definition quat_identity : quat := (fin 0, fin 0, fin 0, fin 1).

Definition translation (x y z : float) : Transform :=
  let o := fin 1 in let n := fin 0 in
  ((o, n, n, x), (n, o, n, y), (n, n, o, z), (n, n, n, o)).

Definition translation_of (T : Transform) : float * float * float :=
  let '((_, _, _, x), (_, _, _, y), (_, _, _, z), _) := T in (x, y, z).

Definition one_half_in_range (n : nat) : (0 <= 1 # 2)%Q /\ (1 # 2 < 1)%Q.
Proof. split; [discriminate | reflexivity]. Qed.

#[local] Instance translations : Collaborators := {|
  kin_pose_from_xyzypr l := ((nth 0 l nan, nth 1 l nan, nth 2 l nan), quat_identity);
  kin_pose_to_H p := let '(x, y, z) := fst p in translation x y z;
  kin_pose_from_H T := (translation_of T, quat_identity);
  kin_quat_to_ypr _ := (fin 0, fin 0, fin 0);
  linalg_inv T :=
    let '(x, y, z) := translation_of T in
    Ok (translation (fin 0 - x) (fin 0 - y) (fin 0 - z))%F;
  GeodesicDistance A B :=
    let '(x, y, z) := translation_of A in
    let '(x', y', z') := translation_of B in
    (TSRChain.fabs (x - x') + TSRChain.fabs (y - y') + TSRChain.fabs (z - z'))%F;
  random_sample _ := (1 # 2)%Q;
  random_sample_range := one_half_in_range
|}.

Definition receding_in_range (n : nat) :
  (0 <= 1 # Pos.of_succ_nat (S n))%Q /\ (1 # Pos.of_succ_nat (S n) < 1)%Q.
Proof. unfold Qle, Qlt. cbn [Qnum Qden]. lia. Qed.

(** The same collaborators with a generator whose draws differ: draw
    number [n] is [1 / (n + 2)]. *)
#[local] Instance receding_draws : Collaborators := {|
  kin_pose_from_xyzypr := @kin_pose_from_xyzypr translations;
  kin_pose_to_H := @kin_pose_to_H translations;
  kin_pose_from_H := @kin_pose_from_H translations;
  kin_quat_to_ypr := @kin_quat_to_ypr translations;
  linalg_inv := @linalg_inv translations;
  GeodesicDistance := @GeodesicDistance translations;
  random_sample n := (1 # Pos.of_succ_nat (S n))%Q;
  random_sample_range := receding_in_range
|}.

Definition initial_guess_only : optimizer := fun S objective x0 bounds s =>
  let '(f, s') := objective x0 s in
  ((fun v => (x0, v)) <$> f, s').

(** Two TSRs used in the examples: the default one, and one whose roll
    bounds are [[3, 4]]. *)
Definition tsr_default : TSR.t :=
  TSR.Build eye4 eye4 zeros6x2 (PyInt (-1)) (PyStr "NULL").

Definition zero_row : row := (fin 0, fin 0).

Definition Bw_roll (lo hi : Q) : array6x2 :=
  Array6x2 zero_row zero_row zero_row (fin lo, fin hi) zero_row zero_row.

Definition origin : list float := replicate 6 (fin 0).

Definition tsr_roll_3_4 : TSR.t :=
  TSR.Build eye4 eye4 (Bw_roll 3 4) (PyInt (-1)) (PyStr "NULL").

(** A box that is 20 wide along x and a single point in every rotation. *)
Definition Bw_wide_x : array6x2 :=
  Array6x2 (fin (-10), fin 10) zero_row zero_row zero_row zero_row zero_row.

(** The chain of the objects at references 0 and 1. *)
Definition chain_0_1 : TSRChain.t :=
  TSRChain.__init__ false false false None (Some [0; 1]%nat) "NULL" None.

(** The default TSR with its end-effector frame one unit along x. *)
Definition tsr_shifted : TSR.t :=
  TSR.Build eye4 (translation (fin 1) (fin 0) (fin 0)) zeros6x2 (PyInt (-1)) (PyStr "NULL").

(** A box one wide along x and two wide in roll, around the origin. *)
Definition tsr_box : TSR.t :=
  TSR.Build eye4 eye4
    (Array6x2 (fin 0, fin 1) zero_row zero_row (fin (-1), fin 1) zero_row zero_row)
    (PyInt (-1)) (PyStr "NULL").

Definition pose_x_roll_free : list float := [nan; fin 0; fin 0; nan; fin 0; fin 0].

(** What [from_dict] rebuilds from the dictionary of a TSR whose [Bw]
    passes the test of the constructor: the same matrices, and the index
    and the name as 0-d arrays. *)
Definition rebuilt (self : TSR.t) : TSR.t :=
  TSR.Build (TSR.T0_w self) (TSR.Tw_e self) (TSR.Bw self)
            (NdInt (int_ (TSR.manipindex self))) (NdStr (str_ (TSR.bodyandlink self))).

(** ** Vocabulary of the statements about sampling *)

(** The value drawn for a row of [Bw] from a draw [u] of the generator. *)
Definition sampled (r : row) (u : Q) : float :=
  (fst r + (snd r - fst r) * fin u)%F.

(** The number of [nan] components of a pose. *)
Definition nan_count (xyzrpy : list float) : nat :=
  length (List.filter isnan xyzrpy).

(** What [sample_xyzrpy], started with the generator in state [g], puts at
    position [i] for the component [x] and the row [r]: a [nan] is
    replaced by the value drawn from [r] with the next draw, which is
    draw number [g] plus the number of [nan] before position [i]; anything
    else is passed on. *)
Definition sample_at `{K : Collaborators} (xyzrpy : list float) (g i : nat)
    (r : row) (x : float) : float :=
  if isnan x then sampled r (random_sample (g + nan_count (take i xyzrpy))) else x.

(** The boxes the statements about sampled and enclosed poses are made
    for.  The code computes in doubles; the bounds are kept away from the
    places where rounding decides: of moderate magnitude, and, for a
    rotation, a margin away from the ends of the turn they lie in. *)
Definition margin : Q := 1 # 1000000000.
Definition magnitude : Q := 1000000.

(** Bounds in order and of moderate magnitude. *)
Definition moderate (lo hi : Q) : Prop :=
  (- magnitude <= lo)%Q /\ (lo <= hi)%Q /\ (hi <= magnitude)%Q.

(** Bounds inside turn [k], [[-pi + 2*pi*k, pi + 2*pi*k)], by the margin. *)
Definition in_turn (k : Z) (lo hi : Q) : Prop :=
  (- Qpi + inject_Z k * (2 * Qpi) + margin <= lo)%Q /\
  (hi <= Qpi + inject_Z k * (2 * Qpi) - margin)%Q.

(** A row from which component [i] can be sampled: moderate bounds, and
    for a rotation (rows 3 to 5) bounds inside one turn. *)
Definition dof_samplable (i : nat) (r : row) : Prop :=
  exists lo hi, r = (fin lo, fin hi) /\ moderate lo hi /\
                ((3 <= i)%nat -> exists k, in_turn k lo hi).

(** ** class BarrettHand ([prpy/base/barretthand.py])

    The hand is a proxy: its methods read the joint values of the robot,
    call the controller and the sensors, and wait.  A method is modelled
    by what it returns and the calls it makes, in order; what the robot,
    the controller and the sensors answer is an argument. *)

Module BarrettHand.

(** The two sensors a hand may own. *)
Inductive sensor : Type :=
| HandstateSensor (args : string)
| BarrettFTSensor (args : string).

(** The calls a method makes on its collaborators. *)
Inductive call : Type :=
| AttachController (name args : string) (dof_indices : list Z) (affine_dofs : Z)
                   (simulated : bool)
| create_sensor (args : string)
| SetDesired (preshape : list float)
| WaitForControllers (timeout : option float)
| CreateRobotStateSaver
| SetActive
| ReleaseFingers
| CloseFingers
| RestoreRobotState
| ControllerSendCommand (cmd : string)
| SensorSendCommand (s : sensor) (cmd : string)
| GetSensorData (s : sensor)
| sleep (seconds : float).

(** The two exceptions the file itself can run into. *)
Inductive error : Type :=
| IndexError (msg : string)
| AttributeError (attr : string).

(** The outcome of a method: an exception or a value, and the calls made. *)
Definition outcome (A : Type) : Type := (error + A) * list call.

(** The attributes of a hand.  The two sensor attributes exist only when
    the constructor has set them. *)
Record t : Type := Build {
  simulated : bool;
  ft_simulated : bool;
  handstate_sensor : option sensor;
  ft_sensor : option sensor
}.

(** ['{0:s} {1:s}'.format('prpy', namespace)] after a plugin name. *)
Definition plugin_args (plugin namespace : string) : string :=
  plugin ++ " prpy " ++ namespace.

(** [name] and [indices] are what [GetName()] and [GetIndices()] of the
    end effector answer. *)
Definition __init__ (sim : bool) (name : string) (indices : list Z)
    (owd_namespace bhd_namespace : string) (ft_sim : bool) : t * list call :=
  let attach := AttachController name (plugin_args "BHController" bhd_namespace) indices 0 sim in
  let hs := plugin_args "HandstateSensor" bhd_namespace in
  let ft := plugin_args "BarrettFTSensor" owd_namespace in
  (Build sim ft_sim
         (if sim then None else Some (HandstateSensor hs))
         (if ft_sim then None else Some (BarrettFTSensor ft)),
   ([attach] ++ (if sim then [] else [create_sensor hs])
             ++ (if ft_sim then [] else [create_sensor ft]))%list).

(** [preshape[i] = v] on a numpy array. *)
Definition setitem (preshape : list float) (i : nat) (v : float) : error + list float :=
  if Nat.ltb i (length preshape) then inr (<[i := v]> preshape)
  else inl (IndexError "index is out of bounds for axis 0").

(** [if v is not None: preshape[i] = v] *)
Definition set_given (i : nat) (v : option float) (preshape : list float) : error + list float :=
  match v with
  | Some v => setitem preshape i v
  | None => inr preshape
  end.

(** [dofs] is what [hand.GetDOFValues()] answers. *)
Definition MoveHand (hand : t) (dofs : list float) (f1 f2 f3 spread timeout : option float)
    : outcome unit :=
  let preshape :=
    match set_given 0 f1 dofs with
    | inl e => inl e
    | inr p =>
        match set_given 1 f2 p with
        | inl e => inl e
        | inr p =>
            match set_given 2 f3 p with
            | inl e => inl e
            | inr p => set_given 3 spread p
            end
        end
    end in
  match preshape with
  | inl e => (inl e, [])
  | inr preshape => (inr tt, [SetDesired preshape; WaitForControllers timeout])
  end.

Definition OpenHand (hand : t) (dofs : list float) (spread timeout : option float)
    : outcome unit :=
  if simulated hand then
    (inr tt, [CreateRobotStateSaver; SetActive; ReleaseFingers; RestoreRobotState;
              WaitForControllers timeout])
  else MoveHand hand dofs (Some (fin 0)) (Some (fin 0)) (Some (fin 0)) spread timeout.

Definition CloseHand (hand : t) (dofs : list float) (spread timeout : option float)
    : outcome unit :=
  if simulated hand then
    (inr tt, [CreateRobotStateSaver; SetActive; CloseFingers; RestoreRobotState;
              WaitForControllers timeout])
  else MoveHand hand dofs (Some (fin (32 # 10))) (Some (fin (32 # 10))) (Some (fin (32 # 10)))
                spread timeout.

Definition ResetHand (hand : t) : outcome unit :=
  if negb (simulated hand) then (inr tt, [ControllerSendCommand "ResetHand"])
  else (inr tt, []).

(** [hand.handstate_sensor] and [hand.ft_sensor] *)
Definition get_handstate_sensor (hand : t) : error + sensor :=
  match handstate_sensor hand with
  | Some s => inr s
  | None => inl (AttributeError "handstate_sensor")
  end.

Definition get_ft_sensor (hand : t) : error + sensor :=
  match ft_sensor hand with
  | Some s => inr s
  | None => inl (AttributeError "ft_sensor")
  end.

Section Readings.

(** What a sensor answers to a command, and its latest data: force and
    torque. *)
Variable reply : sensor -> string -> string.
Variable force torque : sensor -> value.

(** [numpy.zeros(3)] *)
Definition zeros3 : value := VList [VFloat (fin 0); VFloat (fin 0); VFloat (fin 0)].

Definition GetState (hand : t) : outcome string :=
  if simulated hand then (inr "done", [])
  else
    match get_handstate_sensor hand with
    | inl e => (inl e, [])
    | inr s => (inr (reply s "GetState"), [SensorSendCommand s "GetState"])
    end.

Definition GetStrain (hand : t) : outcome value :=
  if negb (simulated hand) then
    match get_handstate_sensor hand with
    | inl e => (inl e, [])
    | inr s => (inr (force s), [GetSensorData s])
    end
  else (inr zeros3, []).

Definition GetBreakaway (hand : t) : outcome value :=
  if negb (simulated hand) then
    match get_handstate_sensor hand with
    | inl e => (inl e, [])
    | inr s => (inr (torque s), [GetSensorData s])
    end
  else (inr (VList [VBool false; VBool false; VBool false]), []).

Definition GetForceTorque (hand : t) : outcome (value * value) :=
  if negb (ft_simulated hand) then
    match get_ft_sensor hand with
    | inl e => (inl e, [])
    | inr s => (inr (force s, torque s), [GetSensorData s])
    end
  else (inr (zeros3, zeros3), []).

Definition TareForceTorqueSensor (hand : t) : outcome unit :=
  if negb (ft_simulated hand) then
    match get_ft_sensor hand with
    | inl e => (inl e, [])
    | inr s => (inr tt, [SensorSendCommand s "Tare"; sleep (fin 2)])
    end
  else (inr tt, []).

End Readings.

End BarrettHand.

(** The joint chosen for position [i] of the preshape by the arguments of
    [MoveHand], if any. *)
Definition chosen (f1 f2 f3 spread : option float) (i : nat) : option float :=
  match i with
  | 0%nat => f1
  | 1%nat => f2
  | 2%nat => f3
  | 3%nat => spread
  | _ => None
  end.

(** The calls of a trace that command or query the controller or a
    sensor. *)
Definition touches_hardware (c : BarrettHand.call) : bool :=
  match c with
  | BarrettHand.SetDesired _ | BarrettHand.ControllerSendCommand _
  | BarrettHand.SensorSendCommand _ _ | BarrettHand.GetSensorData _ => true
  | _ => false
  end.

(** A hand on hardware and a hand in simulation, as the constructor
    builds them. *)
Definition hand_on_hardware : BarrettHand.t :=
  fst (BarrettHand.__init__ false "right_hand" [7; 8; 9; 10]%Z "/right/owd" "/right/bhd" false).

Definition hand_in_simulation : BarrettHand.t :=
  fst (BarrettHand.__init__ true "right_hand" [7; 8; 9; 10]%Z "/right/owd" "/right/bhd" true).

Definition is_inr {A B} (r : A + B) : bool :=
  match r with inr _ => true | inl _ => false end.

(** ** Vocabulary of the statements about boxes *)

(** A finite component between the finite bounds of its row. *)
Definition inside (r : row) (x : float) : Prop :=
  exists lo hi q, r = (fin lo, fin hi) /\ x = fin q /\ (lo <= q)%Q /\ (q <= hi)%Q.

(** A rotational row of moderate bounds inside one turn. *)
Definition regular (r : row) : Prop :=
  exists lo hi k, r = (fin lo, fin hi) /\ moderate lo hi /\ in_turn k lo hi.

(** Bounds that straddle pi: [lo] in [[-pi, pi)] and [hi] in [[pi, 3*pi)],
    each by the margin, and short of a full turn by more than the two
    tolerances and the margin. *)
Definition straddles_pi (r : row) : Prop :=
  exists lo hi, r = (fin lo, fin hi) /\
    (- Qpi + margin <= lo)%Q /\ (lo <= Qpi - margin)%Q /\
    (Qpi + margin <= hi)%Q /\ (hi <= 3 * Qpi - margin)%Q /\
    (hi - lo + (2 # 1000) + margin <= 2 * Qpi)%Q.

(** [k in d] *)
Definition has_key (d : list (string * value)) (k : string) : bool :=
  is_ok (dict_getitem d k).

(** [None] or one element, as a list. *)
Definition optional {A} (o : option A) : list A :=
  match o with Some a => [a] | None => [] end.

(** * Properties *)

(** ** Arithmetic of the wrap *)

Lemma Qfloor_unit (x : Q) : (0 <= x)%Q -> (x < 1)%Q -> Qfloor x = 0%Z.
Proof.
  intros H0 H1.
  pose proof (Qfloor_le x) as Hle.
  pose proof (Qlt_floor x) as Hlt.
  assert (Qfloor x < 1)%Z as Hup.
  { rewrite Zlt_Qlt. eapply Qle_lt_trans; [exact Hle | exact H1]. }
  assert (0 < Qfloor x + 1)%Z as Hdown.
  { rewrite Zlt_Qlt. eapply Qle_lt_trans; [exact H0 | exact Hlt]. }
  lia.
Qed.

Lemma Qmod_small (a m : Q) : (0 <= a)%Q -> (a < m)%Q -> (Qmod a m == a)%Q.
Proof.
  intros H0 Hm.
  assert (0 < m)%Q as Hpos by (eapply Qle_lt_trans; eassumption).
  unfold Qmod. rewrite Qfloor_unit.
  - change (inject_Z 0) with 0%Q. ring.
  - apply Qle_shift_div_l; [exact Hpos |]. now rewrite Qmult_0_l.
  - apply Qlt_shift_div_r; [exact Hpos |]. now rewrite Qmult_1_l.
Qed.

Lemma Qpi_bounds : (3 < Qpi)%Q /\ (Qpi < 4)%Q.
Proof. split; reflexivity. Qed.

Lemma unwrap_fin (q : Q) :
  TSR.unwrap (fin q) = fin (Qmod (q + Qpi) (2 * Qpi) - Qpi).
Proof. reflexivity. Qed.

(** An angle in [[-pi, pi)] is its own wrap. *)
Lemma unwrap_principal (q : Q) :
  (- Qpi <= q)%Q -> (q < Qpi)%Q ->
  (Qmod (q + Qpi) (2 * Qpi) - Qpi == q)%Q.
Proof.
  intros Hlo Hhi. rewrite Qmod_small; [ring | lra | lra].
Qed.

(** ** [TSR.is_valid] *)

(** The six checks of a pose of six components, one by one. *)
Lemma is_valid_six (self : TSR.t) (x y z roll pitch yaw : float) :
  TSR.is_valid self [x; y; z; roll; pitch; yaw] false =
  Ok [TSR.within x (row0 (TSR.Bw self));
      TSR.within y (row1 (TSR.Bw self));
      TSR.within z (row2 (TSR.Bw self));
      TSR.within (TSR.unwrap roll) (TSR.unwrap_row (row3 (TSR.Bw self)));
      TSR.within (TSR.unwrap pitch) (TSR.unwrap_row (row4 (TSR.Bw self)));
      TSR.within (TSR.unwrap yaw) (TSR.unwrap_row (row5 (TSR.Bw self)))].
Proof. reflexivity. Qed.

Lemma length_six {A} (l : list A) :
  length l = 6%nat -> exists a b c d e f, l = [a; b; c; d; e; f].
Proof.
  destruct l as [|a [|b [|c [|d [|e [|f [|g l]]]]]]]; try discriminate.
  intros _. by exists a, b, c, d, e, f.
Qed.

(** Without [ignoreNAN] the method always answers, with one check per
    component up to six. *)
Lemma is_valid_answers (self : TSR.t) (xyzrpy : list float) :
  exists check, TSR.is_valid self xyzrpy false = Ok check /\
                length check = Nat.min 6 (length xyzrpy).
Proof.
  eexists. split; [reflexivity |].
  rewrite length_app, !length_zip_with, !length_fmap, !length_take, !length_drop.
  cbn [rows length]. lia.
Qed.

(** Wrapped bounds in the wrong order admit no angle at all. *)
Lemma within_inverted (x : float) (lo hi : Q) :
  (hi + (2 # 1000) < lo)%Q -> TSR.within x (fin lo, fin hi) = false.
Proof.
  intros Hinv. destruct x as [|q]; [reflexivity |].
  unfold TSR.within, fge, fle, fadd, fsub, lift2, EPSILON; cbn [fst snd].
  destruct (Qle_bool lo (q + (1 # 1000))) eqn:H1; [| reflexivity].
  destruct (Qle_bool (q - (1 # 1000)) hi) eqn:H2; [| reflexivity].
  apply Qle_bool_iff in H1, H2. lra.
Qed.

(** ** [TSR.to_transform] *)

(** [not self.is_valid(xyzrpy)] asks a six-element array for its truth
    value, so the method raises on every pose: on a pose of another length
    by its own test, on a pose of six components by numpy. *)
Lemma to_transform_raises `{K : Collaborators} (self : TSR.t) (xyzrpy : list float) :
  exists msg, TSR.to_transform self xyzrpy = Raise (ValueError msg).
Proof.
  unfold TSR.to_transform.
  destruct (Nat.eqb (length xyzrpy) 6) eqn:Hlen; cbn [negb].
  - apply Nat.eqb_eq, length_six in Hlen as (a & b & c & d & e & f & ->).
    rewrite is_valid_six. eexists. reflexivity.
  - eexists. reflexivity.
Qed.

(** One turn further: an angle in [[pi, 3*pi)] is wrapped one turn down. *)
Lemma Qfloor_eq (x : Q) (n : Z) :
  (inject_Z n <= x)%Q -> (x < inject_Z n + 1)%Q -> Qfloor x = n.
Proof.
  intros Hlo Hhi.
  pose proof (Qfloor_le x) as Hle.
  pose proof (Qlt_floor x) as Hlt.
  rewrite inject_Z_plus in Hlt. change (inject_Z 1) with 1%Q in Hlt.
  assert (Qfloor x < n + 1)%Z as Hup.
  { rewrite Zlt_Qlt, inject_Z_plus. change (inject_Z 1) with 1%Q. lra. }
  assert (n < Qfloor x + 1)%Z as Hdown.
  { rewrite Zlt_Qlt, inject_Z_plus. change (inject_Z 1) with 1%Q. lra. }
  lia.
Qed.

Lemma unwrap_second_turn (q : Q) :
  (Qpi <= q)%Q -> (q < 3 * Qpi)%Q ->
  (Qmod (q + Qpi) (2 * Qpi) - Qpi == q - 2 * Qpi)%Q.
Proof.
  intros Hlo Hhi. unfold Qmod.
  assert (0 < 2 * Qpi)%Q as Hpos by reflexivity.
  rewrite (Qfloor_eq _ 1).
  - change (inject_Z 1) with 1%Q. ring.
  - change (inject_Z 1) with 1%Q.
    apply Qle_shift_div_l; [exact Hpos | lra].
  - change (inject_Z 1 + 1)%Q with 2%Q.
    apply Qlt_shift_div_r; [exact Hpos | lra].
Qed.

(** The defect in general: bounds [[lo, hi]] that straddle pi, with [lo] in
    [[-pi, pi)] and [hi] in [[pi, 3*pi)], less than a full turn apart by
    more than the two margins, are wrapped into the wrong order, and the
    check of such a row is false for every candidate. *)
Lemma straddling_row_admits_nothing (lo hi : Q) (x : float) :
  (- Qpi <= lo)%Q -> (lo < Qpi)%Q -> (Qpi <= hi)%Q -> (hi < 3 * Qpi)%Q ->
  (hi - lo + (2 # 1000) < 2 * Qpi)%Q ->
  TSR.within (TSR.unwrap x) (TSR.unwrap_row (fin lo, fin hi)) = false.
Proof.
  intros Hlo1 Hlo2 Hhi1 Hhi2 Hgap.
  unfold TSR.unwrap_row; cbn [fst snd]. rewrite !unwrap_fin.
  apply within_inverted.
  rewrite (unwrap_principal lo Hlo1 Hlo2), (unwrap_second_turn hi Hhi1 Hhi2). lra.
Qed.

(** With roll bounds [[3, 4]] the wrapped bounds are [3] and [4 - 2*pi],
    in the wrong order: no roll at all passes, whatever the other
    components are. *)
Lemma roll_3_4_admits_nothing (x y z roll pitch yaw : float) :
  exists c0 c1 c2 c4 c5,
    TSR.is_valid tsr_roll_3_4 [x; y; z; roll; pitch; yaw] false =
    Ok [c0; c1; c2; false; c4; c5].
Proof.
  rewrite is_valid_six. do 5 eexists.
  assert (TSR.within (TSR.unwrap roll) (TSR.unwrap_row (row3 (TSR.Bw tsr_roll_3_4))) = false)
    as ->; [| reflexivity].
  set (r := TSR.unwrap_row _). vm_compute in r. subst r.
  apply within_inverted. reflexivity.
Qed.

(** C1.  [TSR.is_valid] does not accept an angle inside bounds that
    straddle pi: the TSR with roll bounds [[3, 4]] is accepted by the
    constructor, pi lies strictly between 3 and 4, the roll 3.5 lies in
    the bounds, and the roll check of [is_valid] is false. *)
Theorem is_valid_rejects_roll_across_pi :
  TSR.__init__ None None (Some (Bw_roll 3 4)) TSR.ManipNone (PyStr "NULL") = Ok tsr_roll_3_4 /\
  (3 < Qpi)%Q /\ (Qpi < 4)%Q /\ (3 <= 35 # 10)%Q /\ (35 # 10 <= 4)%Q /\
  TSR.is_valid tsr_roll_3_4 [fin 0; fin 0; fin 0; fin (35 # 10); fin 0; fin 0] false =
  Ok [true; true; true; false; true; true].
Proof.
  split; [reflexivity |].
  split; [reflexivity |].
  split; [reflexivity |].
  split; [discriminate |].
  split; [discriminate |].
  vm_compute. reflexivity.
Qed.

(** ** [TSR.__init__] *)

(** The constructor tests all six rows of [Bw], and only when [Bw] is
    given. *)
Lemma init_raises_iff (T0_w Tw_e : option Transform) (Bw : option array6x2)
    (manip : TSR.manip_arg) (bodyandlink : strlike) :
  is_ok (TSR.__init__ T0_w Tw_e Bw manip bodyandlink) = false <->
  exists B, Bw = Some B /\ any (TSR.range_exceeds <$> rows B) = true.
Proof.
  unfold TSR.__init__. destruct Bw as [B|].
  - destruct (any (TSR.range_exceeds <$> rows B)) eqn:Hany.
    + split; [intros _; exists B; split; [reflexivity | exact Hany] | reflexivity].
    + split; [discriminate | intros (B' & [= <-] & HB); congruence].
  - split; [discriminate | intros (B & [=] & _)].
Qed.

Lemma init_ok_range (T0_w Tw_e : option Transform) (Bw : option array6x2)
    (manip : TSR.manip_arg) (bodyandlink : strlike) (self : TSR.t) :
  TSR.__init__ T0_w Tw_e Bw manip bodyandlink = Ok self ->
  any (TSR.range_exceeds <$> rows (TSR.Bw self)) = false.
Proof.
  unfold TSR.__init__. destruct Bw as [B|].
  - destruct (any (TSR.range_exceeds <$> rows B)) eqn:Hany; [discriminate |].
    intros [= <-]. exact Hany.
  - intros [= <-]. reflexivity.
Qed.

(** C3.  The constructor raises on a [Bw] none of whose rotational rows
    has any width: the x row, 20 wide, is measured against [2*pi] like the
    others. *)
Theorem init_rejects_wide_translation :
  any (TSR.range_exceeds <$> drop 3 (rows Bw_wide_x)) = false /\
  TSR.__init__ None None (Some Bw_wide_x) TSR.ManipNone (PyStr "NULL") =
  Raise (ValueError "Bw range must be within 2*PI").
Proof. split; reflexivity. Qed.

(** C4.  [to_xyzrpy(to_transform(b0))] never yields a pose, because
    [to_transform] raises on every [b0]; so it does at the origin of the
    default TSR. *)
Theorem to_xyzrpy_of_to_transform_raises :
  (forall (K : Collaborators) (self : TSR.t) (b0 : list float),
      exists msg, TSR.to_transform self b0 ≫= TSR.to_xyzrpy self = Raise (ValueError msg)) /\
  TSR.is_valid tsr_default origin false = Ok (replicate 6 true) /\
  @TSR.to_transform translations tsr_default origin =
  Raise (ValueError
    "The truth value of an array with more than one element is ambiguous. Use a.any() or a.all()").
Proof.
  split; [| split; reflexivity].
  intros K self b0. destruct (to_transform_raises self b0) as [msg ->].
  by exists msg.
Qed.

(** ** [TSR.distance] *)

(** C6.  When all six checks of [contains(trans)] hold, [distance]
    answers [0.] and [to_xyzrpy(trans)], whatever the optimizer is. *)
Theorem distance_inside `{K : Collaborators} (fmin_l_bfgs_b : optimizer)
    (self : TSR.t) (trans : Transform) (inside : list bool) :
  TSR.contains self trans = Ok inside ->
  all inside = true ->
  exists xyzrpy,
    TSR.to_xyzrpy self trans = Ok xyzrpy /\
    TSR.distance fmin_l_bfgs_b self trans = Ok (fin 0, xyzrpy).
Proof.
  intros Hin Hall. unfold TSR.distance. rewrite Hin. cbn. rewrite Hall.
  unfold TSR.contains in Hin.
  destruct (TSR.to_xyzrpy self trans) as [xyzrpy|e]; [| discriminate].
  by exists xyzrpy.
Qed.

Lemma distance_inside_witness :
  @TSR.contains translations tsr_default eye4 = Ok (replicate 6 true) /\
  exists xyzrpy,
    @TSR.to_xyzrpy translations tsr_default eye4 = Ok xyzrpy /\
    @TSR.distance translations initial_guess_only tsr_default eye4 = Ok (fin 0, xyzrpy).
Proof.
  split; [reflexivity |].
  apply (@distance_inside translations initial_guess_only tsr_default eye4 (replicate 6 true));
    reflexivity.
Defined.

(** ** Dictionaries *)

Lemma array4x4_tolist (T : Transform) : array4x4 (Transform_tolist T) = Ok T.
Proof.
  destruct T as [[[[[[a0 a1] a2] a3] [[[b0 b1] b2] b3]] [[[c0 c1] c2] c3]] [[[d0 d1] d2] d3]].
  reflexivity.
Qed.

Lemma array6x2_tolist_inv (B : array6x2) : array6x2_of (array6x2_tolist B) = Ok B.
Proof. destruct B as [[] [] [] [] [] []]. reflexivity. Qed.

Lemma from_dict_to_dict_rebuilt (self : TSR.t) :
  any (TSR.range_exceeds <$> rows (TSR.Bw self)) = false ->
  TSR.from_dict (TSR.to_dict self) = Ok (rebuilt self).
Proof.
  intros Hrange.
  unfold TSR.from_dict, TSR.to_dict.
  cbn -[array4x4 array6x2_of Transform_tolist array6x2_tolist TSR.__init__].
  rewrite !array4x4_tolist.
  cbn -[array4x4 array6x2_of Transform_tolist array6x2_tolist TSR.__init__].
  rewrite array6x2_tolist_inv.
  cbn -[array4x4 array6x2_of Transform_tolist array6x2_tolist TSR.__init__].
  unfold TSR.__init__. by rewrite Hrange.
Qed.

Lemma to_dict_rebuilt (self : TSR.t) : TSR.to_dict (rebuilt self) = TSR.to_dict self.
Proof. reflexivity. Qed.

(** C7.  [TSR.from_dict(t.to_dict())] builds a TSR with the same three
    matrices as [t], and with [manipindex] and [bodyandlink] equal to
    those of [t] as [int] and as [str]. *)
Theorem from_dict_to_dict (T0_w Tw_e : option Transform) (Bw : option array6x2)
    (manip : TSR.manip_arg) (bodyandlink : strlike) (self : TSR.t) :
  TSR.__init__ T0_w Tw_e Bw manip bodyandlink = Ok self ->
  exists back,
    TSR.from_dict (TSR.to_dict self) = Ok back /\
    TSR.T0_w back = TSR.T0_w self /\
    TSR.Tw_e back = TSR.Tw_e self /\
    TSR.Bw back = TSR.Bw self /\
    int_ (TSR.manipindex back) = int_ (TSR.manipindex self) /\
    str_ (TSR.bodyandlink back) = str_ (TSR.bodyandlink self).
Proof.
  intros Hinit. apply init_ok_range in Hinit.
  exists (rebuilt self). split; [by apply from_dict_to_dict_rebuilt | done].
Qed.

Lemma from_dict_to_dict_witness :
  TSR.__init__ None None (Some (Bw_roll 3 4)) TSR.ManipNone (PyStr "NULL") = Ok tsr_roll_3_4 /\
  exists back,
    TSR.from_dict (TSR.to_dict tsr_roll_3_4) = Ok back /\
    TSR.T0_w back = TSR.T0_w tsr_roll_3_4 /\
    TSR.Tw_e back = TSR.Tw_e tsr_roll_3_4 /\
    TSR.Bw back = TSR.Bw tsr_roll_3_4 /\
    int_ (TSR.manipindex back) = int_ (TSR.manipindex tsr_roll_3_4) /\
    str_ (TSR.bodyandlink back) = str_ (TSR.bodyandlink tsr_roll_3_4).
Proof.
  split; [reflexivity |].
  apply (from_dict_to_dict None None (Some (Bw_roll 3 4)) TSR.ManipNone (PyStr "NULL")).
  reflexivity.
Defined.

(** ** [TSRChain.is_valid] *)

(** The loop over [range(len(self.TSRs))] reads both lists at the same
    index, which is a walk down the two lists side by side. *)
Lemma index_loop_zip {B} (h : store) (f : TSR.t -> list float -> exc B)
    (rs : list ref) : forall (xs : list (list float)) (k : nat)
    (R : list ref) (X : list (list float)),
  length xs = length rs ->
  (forall i, R !! (k + i)%nat = rs !! i) ->
  (forall i, X !! (k + i)%nat = xs !! i) ->
  mapM (fun idx => tsr ← (r ← getitem R idx; deref h r); x ← getitem X idx; f tsr x)
       (seq k (length rs)) =
  mapM (fun p => tsr ← deref h p.1; f tsr p.2) (zip rs xs).
Proof.
  induction rs as [|r rs IH]; intros [|x xs] k R X Hlen HR HX; try discriminate.
  - reflexivity.
  - cbn [length seq zip zip_with mapM fst snd].
    pose proof (HR 0%nat) as HR0. pose proof (HX 0%nat) as HX0.
    rewrite Nat.add_0_r in HR0, HX0.
    assert (getitem R k = Ok r) as -> by (unfold getitem; by rewrite HR0).
    assert (getitem X k = Ok x) as -> by (unfold getitem; by rewrite HX0).
    rewrite (IH xs (S k) R X).
    + reflexivity.
    + by injection Hlen.
    + intros i. replace (S k + i)%nat with (k + S i)%nat by lia. exact (HR (S i)).
    + intros i. replace (S k + i)%nat with (k + S i)%nat by lia. exact (HX (S i)).
Qed.

(** C9.  [TSRChain.is_valid] raises as soon as the pose list and the chain
    differ in length, whatever the store holds; when they agree it
    answers with the checks of each TSR on its own pose, in order. *)
Theorem chain_is_valid_lengths (h : store) (self : TSRChain.t)
    (xyzrpy : list (list float)) (ignoreNAN : bool) :
  (length xyzrpy <> length (TSRChain.TSRs self) ->
   TSRChain.is_valid h self xyzrpy ignoreNAN =
   Raise (TypeError "exceptions must derive from BaseException")) /\
  (length xyzrpy = length (TSRChain.TSRs self) ->
   TSRChain.is_valid h self xyzrpy ignoreNAN =
   mapM (fun p => tsr ← deref h p.1; TSR.is_valid tsr p.2 ignoreNAN)
        (zip (TSRChain.TSRs self) xyzrpy)).
Proof.
  unfold TSRChain.is_valid, TSRChain.tsr_at. split; intros Hlen.
  - apply Nat.eqb_neq in Hlen. by rewrite Hlen.
  - rewrite Hlen, Nat.eqb_refl. cbn [negb].
    apply index_loop_zip; [exact Hlen | done | done].
Qed.

Lemma chain_is_valid_lengths_witness :
  (length [origin] <> length (TSRChain.TSRs chain_0_1) /\
   TSRChain.is_valid [tsr_default; tsr_roll_3_4] chain_0_1 [origin] false =
   Raise (TypeError "exceptions must derive from BaseException")) /\
  (length [origin; origin] = length (TSRChain.TSRs chain_0_1) /\
   TSRChain.is_valid [tsr_default; tsr_roll_3_4] chain_0_1 [origin; origin] false =
   Ok [[true; true; true; true; true; true]; [true; true; true; false; true; true]]).
Proof.
  split.
  - split; [discriminate |].
    apply (chain_is_valid_lengths [tsr_default; tsr_roll_3_4] chain_0_1 [origin] false).
    discriminate.
  - split; [reflexivity |].
    rewrite (proj2 (chain_is_valid_lengths [tsr_default; tsr_roll_3_4] chain_0_1
                      [origin; origin] false) eq_refl).
    vm_compute. reflexivity.
Defined.

(** ** [TSRChain.to_transform] *)

Lemma set_T0_w_same (o : TSR.t) : set_T0_w o (TSR.T0_w o) = o.
Proof. by destruct o. Qed.

(** Every call raises and leaves the store as it was: the first TSR is
    assigned its own [T0_w], and its [to_transform] raises. *)
Lemma chain_to_transform_raises `{K : Collaborators} (h : store) (self : TSRChain.t)
    (xyzrpy : list (list float)) :
  exists e, TSRChain.to_transform h self xyzrpy = (Raise e, h).
Proof.
  unfold TSRChain.to_transform.
  destruct (_ ≫= _) as [checked|e]; [| by exists e].
  destruct (TSRChain.tsr_at h self 0) as [first|e] eqn:Hfirst; [| by exists e].
  unfold TSRChain.tsr_at in Hfirst.
  destruct (TSRChain.TSRs self) as [|r rs] eqn:HT; [discriminate |].
  cbn in Hfirst. cbn [length seq TSRChain.chain_from]. rewrite HT.
  cbn [getitem lookup list_lookup]. rewrite Hfirst.
  unfold deref in Hfirst. destruct (h !! r) as [o|] eqn:Hr; [| discriminate].
  injection Hfirst as ->.
  rewrite set_T0_w_same. rewrite list_insert_id by exact Hr.
  destruct (getitem xyzrpy 0) as [x|e]; [| by exists e].
  cbn. destruct (to_transform_raises first x) as [msg ->]. by eexists.
Qed.

(** C2.  [TSRChain.to_transform] yields no transform and writes nothing:
    every call raises with the store unchanged.  On a chain of two TSRs
    with a valid pose for each, the second TSR keeps the [T0_w] it had. *)
Theorem chain_to_transform_never_folds :
  (forall (K : Collaborators) (h : store) (self : TSRChain.t) (xyzrpy : list (list float)),
      exists e, TSRChain.to_transform h self xyzrpy = (Raise e, h)) /\
  TSRChain.is_valid [tsr_shifted; tsr_default] chain_0_1 [origin; origin] false =
  Ok [replicate 6 true; replicate 6 true] /\
  @TSRChain.to_transform translations [tsr_shifted; tsr_default] chain_0_1 [origin; origin] =
  (Raise (ValueError
     "The truth value of an array with more than one element is ambiguous. Use a.any() or a.all()"),
   [tsr_shifted; tsr_default]).
Proof.
  split; [| split; reflexivity].
  intros K h self xyzrpy. apply chain_to_transform_raises.
Qed.

(** ** The text encodings of a chain *)

Lemma chain_to_dict_cases (h : store) (self : TSRChain.t) :
  (exists tsrs, TSRChain.to_dict h self =
     Ok (VDict [
       ("sample_goal", VBool (TSRChain.sample_goal self));
       ("sample_start", VBool (TSRChain.sample_start self));
       ("constrain", VBool (TSRChain.constrain self));
       ("mimicbodyname", VStr (TSRChain.mimicbodyname self));
       ("mimicbodyjoints", VList (VInt <$> TSRChain.mimicbodyjoints self));
       ("tsrs", VList tsrs)])) \/
  TSRChain.to_dict h self = Raise InvalidRef.
Proof.
  unfold TSRChain.to_dict.
  set (f := fun r : nat => TSR.to_dict <$> deref h r).
  assert (forall r, (exists v, f r = Ok v) \/ f r = Raise InvalidRef) as Hf.
  { intros r. unfold f, deref. destruct (h !! r); [left; by eexists | by right]. }
  clearbody f.
  assert (forall rs, (exists tsrs, mapM f rs = Ok tsrs) \/ mapM f rs = Raise InvalidRef) as Hm.
  { induction rs as [|r rs IH]; [left; by exists [] |].
    simpl. destruct (Hf r) as [[v ->] | ->]; simpl; [| by right].
    destruct IH as [[tsrs ->] | ->]; simpl; [left; by eexists | by right]. }
  destruct (Hm (TSRChain.TSRs self)) as [[tsrs ->] | ->]; [left; by exists tsrs | by right].
Qed.

(** The sibling [TSRChain.from_dict] does rebuild a chain from the
    document of a chain: new TSR objects are allocated, and the rebuilt
    chain has the document it was read from. *)
Lemma foldl_append (rs : list nat) : forall self : TSRChain.t,
  foldl TSRChain.append self rs =
  TSRChain.Build (TSRChain.sample_start self) (TSRChain.sample_goal self)
                 (TSRChain.constrain self) (TSRChain.mimicbodyname self)
                 (TSRChain.mimicbodyjoints self) (TSRChain.TSRs self ++ rs).
Proof.
  induction rs as [|r rs IH]; intros self; cbn [foldl].
  - rewrite app_nil_r. by destruct self.
  - rewrite IH. cbn. by rewrite <- app_assoc.
Qed.

Lemma mapM_as_int (js : list Z) : mapM TSRChain.as_int (VInt <$> js) = Ok js.
Proof.
  induction js as [|j js IH]; [reflexivity |].
  change (VInt <$> j :: js) with (VInt j :: (VInt <$> js)).
  simpl mapM. 
  by rewrite IH. Qed.

Lemma bind_Ok {A B} (m : exc A) (k : A -> exc B) (b : B) :
  m ≫= k = Ok b -> exists a, m = Ok a /\ k a = Ok b.
Proof. destruct m as [a|e]; [intros H; by exists a | discriminate]. Qed.

Lemma mapM_cons {A B} (f : A -> exc B) (x : A) (l : list A) :
  mapM f (x :: l) = f x ≫= fun y => mapM f l ≫= fun k => Ok (y :: k).
Proof. reflexivity. Qed.

Lemma to_dicts_inv (h : store) (rs : list nat) : forall tsrs,
  mapM (fun r => TSR.to_dict <$> deref h r) rs = Ok tsrs ->
  exists os, Forall2 (fun r o => h !! r = Some o) rs os /\ tsrs = TSR.to_dict <$> os.
Proof.
  induction rs as [|r rs IH]; intros tsrs.
  - intros Htsrs. injection Htsrs as <-. by exists [].
  - rewrite mapM_cons. intros Htsrs.
    apply bind_Ok in Htsrs as (v & Hv & Htsrs).
    apply bind_Ok in Htsrs as (rest & Hrest & Htsrs).
    injection Htsrs as <-.
    unfold deref in Hv. destruct (h !! r) as [o|] eqn:Hr; [| discriminate].
    injection Hv as <-.
    destruct (IH rest Hrest) as (os & Hos & ->).
    exists (o :: os). split; [by constructor | reflexivity].
Qed.

Lemma from_dicts_to_dicts (os : list TSR.t) : forall h : store,
  Forall (fun o => any (TSR.range_exceeds <$> rows (TSR.Bw o)) = false) os ->
  TSRChain.from_dicts (TSR.to_dict <$> os) h =
  (Ok (seq (length h) (length os)), (h ++ (rebuilt <$> os))%list).
Proof.
  induction os as [|o os IH]; intros h Hos.
  - cbn. by rewrite app_nil_r.
  - apply Forall_cons in Hos as [Ho Hos].
    cbn [fmap list_fmap TSRChain.from_dicts].
    rewrite (from_dict_to_dict_rebuilt o Ho). unfold alloc.
    change (list_fmap TSR.t value TSR.to_dict os) with (TSR.to_dict <$> os).
    rewrite (IH _ Hos). rewrite length_app. cbn [length].
    rewrite Nat.add_1_r, <- app_assoc. reflexivity.
Qed.

Lemma to_dicts_fresh (os : list TSR.t) : forall h : store,
  mapM (fun r => TSR.to_dict <$> deref (h ++ os)%list r) (seq (length h) (length os)) =
  Ok (TSR.to_dict <$> os).
Proof.
  induction os as [|o os IH]; intros h; [reflexivity |].
  cbn [length seq]. rewrite mapM_cons.
  assert (deref (h ++ o :: os)%list (length h) = Ok o) as ->.
  { unfold deref. by rewrite (list_lookup_middle h os o (length h) eq_refl). }
  specialize (IH (h ++ [o])%list).
  rewrite <- app_assoc, length_app, Nat.add_1_r in IH. cbn [app] in IH.
  cbn [fmap exc_fmap mbind exc_bind]. by rewrite IH.
Qed.

Lemma chain_from_dict_to_dict (h : store) (self : TSRChain.t) (d : value) :
  (forall r o, r ∈ TSRChain.TSRs self -> h !! r = Some o ->
               any (TSR.range_exceeds <$> rows (TSR.Bw o)) = false) ->
  TSRChain.to_dict h self = Ok d ->
  exists back h',
    TSRChain.from_dict d h = (Ok back, h') /\
    TSRChain.sample_start back = TSRChain.sample_start self /\
    TSRChain.sample_goal back = TSRChain.sample_goal self /\
    TSRChain.constrain back = TSRChain.constrain self /\
    TSRChain.mimicbodyname back = TSRChain.mimicbodyname self /\
    TSRChain.mimicbodyjoints back = TSRChain.mimicbodyjoints self /\
    length (TSRChain.TSRs back) = length (TSRChain.TSRs self) /\
    TSRChain.to_dict h' back = Ok d.
Proof.
  intros Hrange Hd. unfold TSRChain.to_dict in Hd.
  destruct (mapM _ (TSRChain.TSRs self)) as [tsrs|e] eqn:Hm; [| discriminate].
  injection Hd as <-.
  destruct (to_dicts_inv h _ _ Hm) as (os & Hos & ->).
  assert (Forall (fun o => any (TSR.range_exceeds <$> rows (TSR.Bw o)) = false) os) as Hok.
  { apply Forall_forall. intros o Ho.
    apply list_elem_of_lookup in Ho as [i Hi].
    destruct (Forall2_lookup_r _ _ _ _ _ Hos Hi) as (r & Hr & Hro).
    apply (Hrange r o); [by eapply list_elem_of_lookup_2 | exact Hro]. }
  unfold TSRChain.from_dict.
  cbn -[TSRChain.from_dicts TSRChain.__init__ mapM].
  rewrite (from_dicts_to_dicts os h Hok).
  cbn -[TSRChain.__init__ mapM].
  rewrite mapM_as_int. cbn -[TSRChain.__init__].
  unfold TSRChain.__init__. rewrite foldl_append. cbn [default TSRChain.TSRs app].
  do 2 eexists. split; [reflexivity |]. cbn.
  rewrite length_seq. repeat (split; [reflexivity |]).
  split; [by rewrite (Forall2_length _ _ _ Hos) |].
  unfold TSRChain.to_dict. cbn [TSRChain.TSRs].
  pose proof (to_dicts_fresh (rebuilt <$> os) h) as Hfresh.
  rewrite length_fmap in Hfresh. rewrite Hfresh.
  assert (TSR.to_dict <$> (rebuilt <$> os) = TSR.to_dict <$> os) as ->; [| reflexivity].
  rewrite <- list_fmap_compose. apply list_fmap_ext. intros i o _. apply to_dict_rebuilt.
Qed.

(** C8.  Neither [TSRChain.from_json(c.to_json())] nor
    [TSRChain.from_yaml(c.to_yaml())] rebuilds a chain: the document of a
    chain has no key [T0_w], which [TSR.from_dict] asks for first. *)
Theorem chain_from_text_raises (h : store) (self : TSRChain.t) :
  match TSRChain.to_json h self with
  | Ok s => TSRChain.from_json s = Raise (KeyError "T0_w")
  | Raise e => e = InvalidRef
  end /\
  match TSRChain.to_yaml h self with
  | Ok s => TSRChain.from_yaml s = Raise (KeyError "T0_w")
  | Raise e => e = InvalidRef
  end.
Proof.
  unfold TSRChain.to_json, TSRChain.to_yaml.
  destruct (chain_to_dict_cases h self) as [[tsrs ->] | ->]; split; reflexivity.
Qed.

(** ** The empty chain *)

Lemma initial_guess_only_evaluates : evaluates_initial_guess initial_guess_only.
Proof. intros S objective x0 bounds s s' e H. unfold initial_guess_only. by rewrite H. Qed.

(** C10.  A chain without TSRs accepts the empty pose list in [is_valid],
    with no checks to report, while [to_transform([])] raises an
    [IndexError] at [self.TSRs[0]]; so do [sample()] and, with an
    optimizer that starts by evaluating its objective, [distance]. *)
Theorem empty_chain_has_no_first `{K : Collaborators} (h : store) (self : TSRChain.t) :
  TSRChain.TSRs self = [] ->
  (forall ignoreNAN, TSRChain.is_valid h self [] ignoreNAN = Ok []) /\
  TSRChain.to_transform h self [] = (Raise (IndexError "list index out of range"), h) /\
  (forall g, TSRChain.sample h self None g =
             (Raise (IndexError "list index out of range"), h, g)) /\
  (forall fmin_l_bfgs_b trans,
      evaluates_initial_guess fmin_l_bfgs_b ->
      TSRChain.distance fmin_l_bfgs_b h self trans =
      (Raise (IndexError "list index out of range"), h)).
Proof.
  intros Hempty.
  assert (TSRChain.to_transform h self [] =
          (Raise (IndexError "list index out of range"), h)) as Hto.
  { unfold TSRChain.to_transform, TSRChain.is_valid, TSRChain.tsr_at.
    rewrite Hempty. reflexivity. }
  split; [| split; [exact Hto | split]].
  - intros ignoreNAN. unfold TSRChain.is_valid. rewrite Hempty. reflexivity.
  - intros g. unfold TSRChain.sample, TSRChain.sample_xyzrpy.
    rewrite Hempty. cbn. by rewrite Hto.
  - intros opt trans Hopt. unfold TSRChain.distance. rewrite Hempty. cbn.
    rewrite (Hopt _ _ _ _ h h (IndexError "list index out of range")); [reflexivity |].
    unfold TSRChain.objective, reshape. rewrite Hempty. cbn. by rewrite Hto.
Qed.

Lemma empty_chain_has_no_first_witness :
  let self := TSRChain.__init__ true false false None None "NULL" None in
  TSRChain.TSRs self = [] /\
  TSRChain.is_valid [tsr_default] self [] false = Ok [] /\
  @TSRChain.to_transform translations [tsr_default] self [] =
  (Raise (IndexError "list index out of range"), [tsr_default]) /\
  @TSRChain.distance translations initial_guess_only [tsr_default] self eye4 =
  (Raise (IndexError "list index out of range"), [tsr_default]).
Proof.
  intros self.
  destruct (@empty_chain_has_no_first translations [tsr_default] self eq_refl)
    as (Hvalid & Hto & _ & Hdist).
  split; [reflexivity |].
  split; [apply Hvalid |].
  split; [exact Hto |].
  apply Hdist, initial_guess_only_evaluates.
Defined.

(** ** [TSR.sample_xyzrpy] *)

Lemma is_valid_six_ignoring (self : TSR.t) (x y z roll pitch yaw : float) :
  TSR.is_valid self [x; y; z; roll; pitch; yaw] true =
  Ok [masked (TSR.within x (row0 (TSR.Bw self))) (isnan x);
      masked (TSR.within y (row1 (TSR.Bw self))) (isnan y);
      masked (TSR.within z (row2 (TSR.Bw self))) (isnan z);
      masked (TSR.within (TSR.unwrap roll) (TSR.unwrap_row (row3 (TSR.Bw self)))) (isnan roll);
      masked (TSR.within (TSR.unwrap pitch) (TSR.unwrap_row (row4 (TSR.Bw self)))) (isnan pitch);
      masked (TSR.within (TSR.unwrap yaw) (TSR.unwrap_row (row5 (TSR.Bw self)))) (isnan yaw)].
Proof. reflexivity. Qed.

(** *** Whole turns *)

Lemma Qfloor_add_Z (x : Q) (k : Z) : Qfloor (x + inject_Z k) = (Qfloor x + k)%Z.
Proof.
  pose proof (Qfloor_le x) as Hle.
  pose proof (Qlt_floor x) as Hlt.
  rewrite inject_Z_plus in Hlt. change (inject_Z 1) with 1%Q in Hlt.
  apply Qfloor_eq; rewrite inject_Z_plus; lra.
Qed.

Lemma Qmod_add_turns (a m : Q) (k : Z) :
  (0 < m)%Q -> (Qmod (a + inject_Z k * m) m == Qmod a m)%Q.
Proof.
  intros Hm. unfold Qmod.
  assert ((a + inject_Z k * m) / m == a / m + inject_Z k)%Q as -> by (field; lra).
  rewrite Qfloor_add_Z, inject_Z_plus. ring.
Qed.

Lemma Qmod_Qeq (a a' m : Q) : (a == a')%Q -> (Qmod a m == Qmod a' m)%Q.
Proof.
  intros Ha. unfold Qmod.
  assert (Qfloor (a / m) = Qfloor (a' / m)) as ->.
  { apply Qfloor_comp. apply Qdiv_comp; [exact Ha | reflexivity]. }
  lra.
Qed.

(** The wrap takes an angle of turn [k] back by [k] turns. *)
Lemma unwrap_in_turn (q : Q) (k : Z) :
  (- Qpi + inject_Z k * (2 * Qpi) <= q)%Q -> (q < Qpi + inject_Z k * (2 * Qpi))%Q ->
  (Qmod (q + Qpi) (2 * Qpi) - Qpi == q - inject_Z k * (2 * Qpi))%Q.
Proof.
  intros Hlo Hhi.
  assert (q + Qpi == (q - inject_Z k * (2 * Qpi) + Qpi) + inject_Z k * (2 * Qpi))%Q as E by ring.
  rewrite (Qmod_Qeq _ _ _ E), Qmod_add_turns by reflexivity.
  set (s := (inject_Z k * (2 * Qpi))%Q) in *.
  rewrite Qmod_small; lra.
Qed.

Lemma margin_pos : (0 < margin)%Q.
Proof. reflexivity. Qed.

(** A value between bounds that lie in one turn passes the check made on
    the wrapped value and the wrapped bounds. *)
Lemma within_unwrap_between (lo hi v : Q) (k : Z) :
  in_turn k lo hi -> (lo <= v)%Q -> (v <= hi)%Q ->
  TSR.within (TSR.unwrap (fin v)) (TSR.unwrap_row (fin lo, fin hi)) = true.
Proof.
  intros [Hlo Hhi] Hv1 Hv2. pose proof margin_pos as Hm.
  unfold TSR.unwrap_row; cbn [fst snd]. rewrite !unwrap_fin.
  pose proof (unwrap_in_turn lo k) as Elo.
  pose proof (unwrap_in_turn hi k) as Ehi.
  pose proof (unwrap_in_turn v k) as Ev.
  unfold TSR.within, fge, fle, fadd, fsub, lift2, EPSILON; cbn [fst snd].
  set (s := (inject_Z k * (2 * Qpi))%Q) in *.
  set (lo' := (Qmod (lo + Qpi) (2 * Qpi) - Qpi)%Q) in *.
  set (hi' := (Qmod (hi + Qpi) (2 * Qpi) - Qpi)%Q) in *.
  set (v' := (Qmod (v + Qpi) (2 * Qpi) - Qpi)%Q) in *.
  assert (lo' == lo - s)%Q as Hlo' by (apply Elo; lra).
  assert (hi' == hi - s)%Q as Hhi' by (apply Ehi; lra).
  assert (v' == v - s)%Q as Hv' by (apply Ev; lra).
  apply andb_true_intro. split; apply Qle_bool_iff; lra.
Qed.

(** *** The values drawn *)

(** A draw lands between the bounds when they are in order. *)
Lemma sampled_between (lo hi u : Q) :
  (lo <= hi)%Q -> (0 <= u)%Q -> (u < 1)%Q ->
  exists v, sampled (fin lo, fin hi) u = fin v /\ (lo <= v)%Q /\ (v <= hi)%Q.
Proof.
  intros Hr Hu0 Hu1. eexists. split; [reflexivity |]. split; nra.
Qed.

Lemma within_sampled (lo hi u : Q) :
  (lo <= hi)%Q -> (0 <= u)%Q -> (u < 1)%Q ->
  TSR.within (sampled (fin lo, fin hi) u) (fin lo, fin hi) = true.
Proof.
  intros Hr Hu0 Hu1.
  unfold TSR.within, sampled, fge, fle, fadd, fsub, fmul, lift2, EPSILON; cbn [fst snd].
  apply andb_true_intro. split; apply Qle_bool_iff; nra.
Qed.

(** One translational component of the result passes its check. *)
Lemma dof_valid_xyz (i : nat) (r : row) (x : float) (u : Q) :
  (0 <= u)%Q -> (u < 1)%Q ->
  (isnan x = true -> dof_samplable i r) ->
  masked (TSR.within x r) (isnan x) = true ->
  TSR.within (if isnan x then sampled r u else x) r = true.
Proof.
  intros Hu0 Hu1 Hb Hc. unfold masked in Hc.
  destruct (isnan x); [| exact Hc].
  destruct (Hb eq_refl) as (lo & hi & -> & (_ & Hr & _) & _).
  by apply within_sampled.
Qed.

(** One rotational component of the result passes its check. *)
Lemma dof_valid_rpy (i : nat) (r : row) (x : float) (u : Q) :
  (3 <= i)%nat ->
  (0 <= u)%Q -> (u < 1)%Q ->
  (isnan x = true -> dof_samplable i r) ->
  masked (TSR.within (TSR.unwrap x) (TSR.unwrap_row r)) (isnan x) = true ->
  TSR.within (TSR.unwrap (if isnan x then sampled r u else x)) (TSR.unwrap_row r) = true.
Proof.
  intros Hi Hu0 Hu1 Hb Hc. unfold masked in Hc.
  destruct (isnan x); [| exact Hc].
  destruct (Hb eq_refl) as (lo & hi & -> & (_ & Hr & _) & Hturn).
  destruct (Hturn Hi) as [k Hk].
  destruct (sampled_between lo hi u Hr Hu0 Hu1) as (v & -> & Hv1 & Hv2).
  by apply (within_unwrap_between lo hi v k).
Qed.

(** The comprehension, from any position: it answers as long as the rows
    of [Bw] last, with one draw of the generator for each [nan], made in
    the order of the components. *)
Lemma sample_from_lookup `{K : Collaborators} (self : TSR.t) (xs : list float) :
  forall (i g : nat),
    (i + length xs <= 6)%nat ->
    exists out,
      TSR.sample_from self i xs g = (Ok out, (g + nan_count xs)%nat) /\
      length out = length xs /\
      forall j x r,
        xs !! j = Some x -> rows (TSR.Bw self) !! (i + j)%nat = Some r ->
        out !! j =
        Some (if isnan x then sampled r (random_sample (g + nan_count (take j xs))) else x).
Proof.
  induction xs as [|x xs IH]; intros i g Hlen.
  - exists []. unfold nan_count. cbn. rewrite Nat.add_0_r.
    split; [reflexivity |]. split; [reflexivity |]. intros j x r Hx. discriminate.
  - cbn [length] in Hlen.
    destruct (lookup_lt_is_Some_2 (rows (TSR.Bw self)) i) as [r0 Hr0]; [cbn; lia |].
    cbn [TSR.sample_from]. unfold getitem. rewrite Hr0.
    unfold nan_count. cbn [List.filter].
    destruct (isnan x) eqn:Hx.
    + destruct (IH (S i) (S g)) as (out & -> & Hout & Hlk); [lia |].
      exists (sampled r0 (random_sample g) :: out).
      split; [cbn [fmap exc_fmap length]; unfold sampled, nan_count; f_equal; lia |].
      split; [cbn; by rewrite Hout |].
      intros [|j] y r Hy Hr.
      * injection Hy as <-. rewrite Nat.add_0_r in Hr. rewrite Hr0 in Hr. injection Hr as <-.
        rewrite Hx. cbn [take List.filter length lookup list_lookup].
        by rewrite Nat.add_0_r.
      * change ((x :: xs) !! S j) with (xs !! j) in Hy.
        change ((sampled r0 (random_sample g) :: out) !! S j) with (out !! j).
        replace (i + S j)%nat with (S i + j)%nat in Hr by lia.
        rewrite (Hlk j y r Hy Hr).
        cbn [take List.filter]. rewrite Hx. cbn [length].
        unfold nan_count. by replace (g + S (length (List.filter isnan (take j xs))))%nat
          with (S g + length (List.filter isnan (take j xs)))%nat by lia.
    + destruct (IH (S i) g) as (out & -> & Hout & Hlk); [lia |].
      exists (x :: out). split; [reflexivity |].
      split; [cbn; by rewrite Hout |].
      intros [|j] y r Hy Hr.
      * injection Hy as <-. rewrite Hx. reflexivity.
      * change ((x :: xs) !! S j) with (xs !! j) in Hy.
        change ((x :: out) !! S j) with (out !! j).
        replace (i + S j)%nat with (S i + j)%nat in Hr by lia.
        rewrite (Hlk j y r Hy Hr).
        cbn [take List.filter]. rewrite Hx. reflexivity.
Qed.



(** Roll bounds [[4, 5]] lie inside the turn after the principal one,
    and qualify. *)
Lemma roll_4_5_samplable : dof_samplable 3 (fin 4, fin 5).
Proof.
  exists 4%Q, 5%Q. split; [reflexivity |].
  split; [repeat split; vm_compute; discriminate |].
  intros _. exists 1%Z. split; vm_compute; discriminate.
Qed.


(** * Further properties of [TSR] *)

(** ** The checks *)

Lemma within_nan (r : row) : TSR.within nan r = false.
Proof. by destruct r as [[|lo] hi]. Qed.

(** X3.  A [nan] component of a pose of six fails its check, and passes
    it when [ignoreNAN] is set. *)
Theorem is_valid_nan_component (self : TSR.t) (xyzrpy : list float) (i : nat) :
  length xyzrpy = 6%nat ->
  xyzrpy !! i = Some nan ->
  exists strict lenient,
    TSR.is_valid self xyzrpy false = Ok strict /\ strict !! i = Some false /\
    TSR.is_valid self xyzrpy true = Ok lenient /\ lenient !! i = Some true.
Proof.
  intros Hlen Hi.
  apply length_six in Hlen as (x & y & z & roll & pitch & yaw & ->).
  rewrite is_valid_six, is_valid_six_ignoring. do 2 eexists.
  split; [reflexivity |]. split; [| split; [reflexivity |]].
  - do 6 (destruct i as [|i];
          [injection Hi as ->; cbn [lookup list_lookup];
           change (TSR.unwrap nan) with nan; by rewrite within_nan |]).
    discriminate.
  - do 6 (destruct i as [|i]; [by injection Hi as -> |]).
    discriminate.
Qed.

Lemma is_valid_nan_component_witness :
  length pose_x_roll_free = 6%nat /\ pose_x_roll_free !! 3%nat = Some nan /\
  exists strict lenient,
    TSR.is_valid tsr_box pose_x_roll_free false = Ok strict /\ strict !! 3%nat = Some false /\
    TSR.is_valid tsr_box pose_x_roll_free true = Ok lenient /\ lenient !! 3%nat = Some true.
Proof.
  split; [reflexivity |]. split; [reflexivity |].
  apply (is_valid_nan_component tsr_box pose_x_roll_free 3); reflexivity.
Defined.

(** X4.  Without [ignoreNAN], [is_valid] never raises and gives one check
    per component, six at most: a short pose gets fewer checks, a long
    one is cut at six. *)
Theorem is_valid_check_count (self : TSR.t) (xyzrpy : list float) :
  exists check, TSR.is_valid self xyzrpy false = Ok check /\
                length check = Nat.min 6 (length xyzrpy).
Proof. apply is_valid_answers. Qed.

(** X5.  A rotational row whose bounds straddle pi, [lo] in [[-pi, pi)]
    and [hi] in [[pi, 3*pi)], each a margin away from the ends and less
    than a full turn apart by more than the two tolerances and the margin,
    rejects every candidate: the check of that component is false on every
    pose. *)
Theorem is_valid_straddling_row (self : TSR.t) (x y z roll pitch yaw : float)
    (i : nat) (r : row) :
  (3 <= i)%nat ->
  rows (TSR.Bw self) !! i = Some r ->
  straddles_pi r ->
  exists check,
    TSR.is_valid self [x; y; z; roll; pitch; yaw] false = Ok check /\
    check !! i = Some false.
Proof.
  intros Hi Hr (lo & hi & -> & H1 & H2 & H3 & H4 & H5).
  pose proof margin_pos as Hm.
  rewrite is_valid_six. eexists. split; [reflexivity |].
  do 3 (destruct i as [|i]; [lia |]).
  do 3 (destruct i as [|i];
        [injection Hr as ->; cbn [lookup list_lookup]; f_equal;
         apply straddling_row_admits_nothing; lra |]).
  discriminate.
Qed.

Lemma is_valid_straddling_row_witness :
  (3 <= 3)%nat /\ rows (TSR.Bw tsr_roll_3_4) !! 3%nat = Some (fin 3, fin 4) /\
  straddles_pi (fin 3, fin 4) /\
  exists check,
    TSR.is_valid tsr_roll_3_4 [fin 0; fin 0; fin 0; fin (35 # 10); fin 0; fin 0] false = Ok check /\
    check !! 3%nat = Some false.
Proof.
  assert (straddles_pi (fin 3, fin 4)) as Hs.
  { exists 3%Q, 4%Q. split; [reflexivity |]. repeat split; vm_compute; discriminate. }
  split; [lia |]. split; [reflexivity |]. split; [exact Hs |].
  apply (is_valid_straddling_row tsr_roll_3_4 _ _ _ _ _ _ 3 (fin 3, fin 4));
    [lia | reflexivity | exact Hs].
Defined.

Lemma within_inside (r : row) (x : float) : inside r x -> TSR.within x r = true.
Proof.
  intros (lo & hi & q & -> & -> & Hlo & Hhi).
  unfold TSR.within, fge, fle, fadd, fsub, lift2, EPSILON; cbn [fst snd].
  apply andb_true_intro. split; apply Qle_bool_iff; lra.
Qed.

Lemma within_unwrap_inside (r : row) (x : float) :
  inside r x -> regular r -> TSR.within (TSR.unwrap x) (TSR.unwrap_row r) = true.
Proof.
  intros (lo & hi & q & -> & -> & Hlo & Hhi) (lo' & hi' & k & [= <- <-] & _ & Hk).
  by apply (within_unwrap_between lo hi q k).
Qed.

(** X6.  On a box whose rotational rows have bounds in order, of
    moderate magnitude and inside one turn
    [[-pi + 2*pi*k, pi + 2*pi*k)], a margin away from its ends, a pose
    with every component between the bounds of its row passes all six
    checks. *)
Theorem is_valid_inside_box (self : TSR.t) (xyzrpy : list float) :
  Forall2 inside (rows (TSR.Bw self)) xyzrpy ->
  Forall regular (drop 3 (rows (TSR.Bw self))) ->
  TSR.is_valid self xyzrpy false = Ok (replicate 6 true).
Proof.
  intros Hin Hp.
  pose proof (Forall2_length _ _ _ Hin) as Hlen. cbn in Hlen. symmetry in Hlen.
  apply length_six in Hlen as (x & y & z & roll & pitch & yaw & ->).
  unfold rows in Hin, Hp. cbn [drop] in Hp.
  repeat match goal with
         | H : Forall2 _ (_ :: _) _ |- _ => inversion H; subst; clear H
         | H : Forall _ (_ :: _) |- _ => inversion H; subst; clear H
         end.
  rewrite is_valid_six. cbn [replicate].
  repeat f_equal; (by apply within_inside) || (by apply within_unwrap_inside).
Qed.

Lemma is_valid_inside_box_witness :
  let pose := [fin (1 # 2); fin 0; fin 0; fin (1 # 2); fin 0; fin 0] in
  Forall2 inside (rows (TSR.Bw tsr_box)) pose /\
  Forall regular (drop 3 (rows (TSR.Bw tsr_box))) /\
  TSR.is_valid tsr_box pose false = Ok (replicate 6 true).
Proof.
  intros pose.
  assert (Forall2 inside (rows (TSR.Bw tsr_box)) pose) as Hin.
  { repeat constructor.
    - exists 0%Q, 1%Q, (1 # 2)%Q. repeat split; discriminate.
    - exists 0%Q, 0%Q, 0%Q. repeat split; discriminate.
    - exists 0%Q, 0%Q, 0%Q. repeat split; discriminate.
    - exists (-1)%Q, 1%Q, (1 # 2)%Q. repeat split; discriminate.
    - exists 0%Q, 0%Q, 0%Q. repeat split; discriminate.
    - exists 0%Q, 0%Q, 0%Q. repeat split; discriminate. }
  assert (Forall regular (drop 3 (rows (TSR.Bw tsr_box)))) as Hp.
  { repeat constructor.
    - exists (-1)%Q, 1%Q, 0%Z. repeat split; vm_compute; discriminate.
    - exists 0%Q, 0%Q, 0%Z. repeat split; vm_compute; discriminate.
    - exists 0%Q, 0%Q, 0%Z. repeat split; vm_compute; discriminate. }
  split; [exact Hin |]. split; [exact Hp |].
  exact (is_valid_inside_box tsr_box pose Hin Hp).
Defined.

(** ** [to_xyzrpy], [contains], [distance] and [sample] *)

(** X8.  [to_xyzrpy] and [contains] answer exactly when both frames of
    the TSR can be inverted, with a pose of six components and six
    checks; otherwise both raise what the inversion raised, that of
    [T0_w] first. *)
Theorem to_xyzrpy_answers `{K : Collaborators} (self : TSR.t) (trans : Transform) :
  match linalg_inv (TSR.T0_w self), linalg_inv (TSR.Tw_e self) with
  | Ok _, Ok _ =>
      exists xyzrpy check,
        TSR.to_xyzrpy self trans = Ok xyzrpy /\ length xyzrpy = 6%nat /\
        TSR.contains self trans = Ok check /\ length check = 6%nat
  | Raise e, _ | Ok _, Raise e =>
      TSR.to_xyzrpy self trans = Raise e /\ TSR.contains self trans = Raise e
  end.
Proof.
  unfold TSR.contains, TSR.to_xyzrpy.
  destruct (linalg_inv (TSR.T0_w self)) as [inv0|e]; [| by split].
  destruct (linalg_inv (TSR.Tw_e self)) as [inve|e]; [| by split].
  cbn [mbind exc_bind].
  destruct (kin_pose_from_H _) as [[[px py] pz] q].
  destruct (kin_quat_to_ypr q) as [[yaw pitch] roll].
  do 2 eexists. split; [reflexivity |]. split; [reflexivity |].
  cbn [mbind exc_bind]. rewrite is_valid_six. by split.
Qed.

(** X9.  Outside the box [distance] never answers when the optimizer
    starts by evaluating its objective: the objective calls
    [to_transform], whose [ValueError] is the outcome. *)
Theorem distance_outside_raises `{K : Collaborators} (fmin_l_bfgs_b : optimizer)
    (self : TSR.t) (trans : Transform) (inside : list bool) :
  evaluates_initial_guess fmin_l_bfgs_b ->
  TSR.contains self trans = Ok inside ->
  all inside = false ->
  exists msg, TSR.distance fmin_l_bfgs_b self trans = Raise (ValueError msg).
Proof.
  intros Hopt Hin Hall. unfold TSR.distance. rewrite Hin. cbn [mbind exc_bind]. rewrite Hall.
  set (bwinit := _ <$> rows (TSR.Bw self)).
  destruct (to_transform_raises self bwinit) as [msg Hmsg].
  rewrite (Hopt unit (TSR.objective self trans) bwinit (rows (TSR.Bw self)) tt tt (ValueError msg)).
  - by exists msg.
  - unfold TSR.objective. by rewrite Hmsg.
Qed.

Lemma distance_outside_raises_witness :
  let far := translation (fin 1) (fin 0) (fin 0) in
  evaluates_initial_guess initial_guess_only /\
  @TSR.contains translations tsr_default far = Ok [false; true; true; true; true; true] /\
  exists msg,
    @TSR.distance translations initial_guess_only tsr_default far = Raise (ValueError msg).
Proof.
  intros far.
  split; [exact initial_guess_only_evaluates |]. split; [vm_compute; reflexivity |].
  apply (@distance_outside_raises translations initial_guess_only tsr_default far
           [false; true; true; true; true; true]);
    [exact initial_guess_only_evaluates | vm_compute; reflexivity | reflexivity].
Defined.

(** X10.  [TSR.sample] never returns a transform: either [sample_xyzrpy]
    raises, or its pose goes through [to_transform], which raises. *)
Theorem sample_never_returns `{K : Collaborators} (self : TSR.t) (xyzrpy : list float) (g : nat) :
  exists e, fst (TSR.sample self xyzrpy g) = Raise e.
Proof.
  unfold TSR.sample. destruct (TSR.sample_xyzrpy self xyzrpy g) as [[out|e] g']; cbn.
  - destruct (to_transform_raises self out) as [msg ->]. by eexists.
  - by exists e.
Qed.

(** ** The generator in [sample_xyzrpy] *)

Lemma sample_from_draws `{K : Collaborators} (self : TSR.t) (xs : list float) :
  forall (i g : nat),
    (i + length xs <= 6)%nat ->
    exists out,
      TSR.sample_from self i xs g = (Ok out, (g + nan_count xs)%nat) /\
      length out = length xs.
Proof.
  induction xs as [|x xs IH]; intros i g Hlen.
  - exists []. unfold nan_count. cbn. by rewrite Nat.add_0_r.
  - cbn [length] in Hlen.
    destruct (lookup_lt_is_Some_2 (rows (TSR.Bw self)) i) as [r Hr]; [cbn; lia |].
    cbn [TSR.sample_from]. unfold getitem. rewrite Hr.
    unfold nan_count. cbn [List.filter].
    destruct (isnan x) eqn:Hx.
    + destruct (IH (S i) (S g)) as (out & -> & Hout); [lia |].
      exists ((r.1 + (r.2 - r.1) * fin (random_sample g))%F :: out).
      split; [| cbn; by rewrite Hout].
      cbn [fmap exc_fmap length]. unfold nan_count. f_equal. lia.
    + destruct (IH (S i) g) as (out & -> & Hout); [lia |].
      exists (x :: out). split; [reflexivity | cbn; by rewrite Hout].
Qed.

Lemma is_valid_ignoring_short (self : TSR.t) (xyzrpy : list float) :
  (length xyzrpy <= 6)%nat ->
  exists check, TSR.is_valid self xyzrpy true = Ok check.
Proof.
  intros Hlen. unfold TSR.is_valid, mask_assign_true.
  rewrite length_fmap, length_app, !length_zip_with, !length_fmap, !length_take, !length_drop.
  cbn [rows length].
  rewrite (proj2 (Nat.eqb_eq _ _)) by lia. by eexists.
Qed.

(** The all-[nan] pose passes the masked test on every TSR, and draw
    number [g + i] of the generator is spent on component [i]. *)
Lemma sample_NANBW_answers `{K : Collaborators} (self : TSR.t) (g : nat) :
  exists out,
    TSR.sample_xyzrpy self TSR.NANBW g = (Ok out, (g + 6)%nat) /\
    length out = 6%nat /\
    forall i r, rows (TSR.Bw self) !! i = Some r ->
                out !! i = Some (sampled r (random_sample (g + i))).
Proof.
  unfold TSR.sample_xyzrpy.
  change TSR.NANBW with [nan; nan; nan; nan; nan; nan].
  rewrite is_valid_six_ignoring. cbn [isnan masked all forallb id andb negb].
  destruct (sample_from_lookup self [nan; nan; nan; nan; nan; nan] 0 g)
    as (out & Hout & Hlen & Hlk); [cbn; lia |].
  exists out. split; [exact Hout |]. split; [exact Hlen |].
  intros i r Hr.
  assert (i < 6)%nat as Hi by (apply lookup_lt_Some in Hr; exact Hr).
  destruct i as [|[|[|[|[|[|i]]]]]]; [| | | | | | lia].
  - exact (Hlk 0%nat nan r eq_refl Hr).
  - exact (Hlk 1%nat nan r eq_refl Hr).
  - exact (Hlk 2%nat nan r eq_refl Hr).
  - exact (Hlk 3%nat nan r eq_refl Hr).
  - exact (Hlk 4%nat nan r eq_refl Hr).
  - exact (Hlk 5%nat nan r eq_refl Hr).
Qed.

(** X11.  With its default argument, all components [nan],
    [sample_xyzrpy] answers on every TSR with six values for six draws of
    the generator: component [i] is [Bw[i,0] + (Bw[i,1] - Bw[i,0]) * u]
    for the draw [u] number [g + i], [g] being the number of draws made
    before the call. *)
Theorem sample_xyzrpy_default `{K : Collaborators} (self : TSR.t) (g : nat) :
  exists out,
    TSR.sample_xyzrpy self TSR.NANBW g = (Ok out, (g + 6)%nat) /\
    length out = 6%nat /\
    forall i r, rows (TSR.Bw self) !! i = Some r ->
                out !! i = Some (sampled r (random_sample (g + i))).
Proof. apply sample_NANBW_answers. Qed.

(** X12.  On a pose of at most six components [sample_xyzrpy] either
    raises the bounds error without touching the generator, or answers
    with as many components as it was given and one draw per [nan]. *)
Theorem sample_xyzrpy_draws `{K : Collaborators} (self : TSR.t) (xyzrpy : list float) (g : nat) :
  (length xyzrpy <= 6)%nat ->
  TSR.sample_xyzrpy self xyzrpy g = (Raise (ValueError "xyzrpy must be within bounds"), g) \/
  exists out,
    TSR.sample_xyzrpy self xyzrpy g = (Ok out, (g + nan_count xyzrpy)%nat) /\
    length out = length xyzrpy.
Proof.
  intros Hlen. unfold TSR.sample_xyzrpy.
  destruct (is_valid_ignoring_short self xyzrpy Hlen) as [check ->].
  destruct (all check); cbn [negb]; [right | by left].
  apply sample_from_draws. cbn. lia.
Qed.

Lemma sample_xyzrpy_draws_witness :
  (length pose_x_roll_free <= 6)%nat /\
  (@TSR.sample_xyzrpy translations tsr_box pose_x_roll_free 10 =
     (Raise (ValueError "xyzrpy must be within bounds"), 10%nat) \/
   exists out,
     @TSR.sample_xyzrpy translations tsr_box pose_x_roll_free 10 =
       (Ok out, (10 + nan_count pose_x_roll_free)%nat) /\
     length out = length pose_x_roll_free).
Proof.
  split; [cbn; lia |].
  apply (@sample_xyzrpy_draws translations tsr_box pose_x_roll_free 10). cbn. lia.
Defined.

(** ** Dictionaries of a TSR *)

Lemma dict_getitem_raise (d : list (string * value)) (k : string) (e : exn) :
  dict_getitem d k = Raise e -> e = KeyError k.
Proof.
  induction d as [|[k' v] d IH]; cbn; [by intros [= <-] |].
  destruct (String.eqb k' k); [discriminate | exact IH].
Qed.

Lemma dict_getitem_has_key (d : list (string * value)) (k : string) (v : value) :
  dict_getitem d k = Ok v -> has_key d k = true.
Proof. unfold has_key. by intros ->. Qed.

Lemma dict_get_default (d : list (string * value)) (k : string) (default : value) :
  has_key d k = false -> dict_get d k default = default.
Proof. unfold has_key, dict_get. by destruct (dict_getitem d k). Qed.

Lemma init_fields (T0_w Tw_e : Transform) (Bw : array6x2) (i : intlike) (s : strlike)
    (self : TSR.t) :
  TSR.__init__ (Some T0_w) (Some Tw_e) (Some Bw) (TSR.ManipIndex i) s = Ok self ->
  self = TSR.Build T0_w Tw_e Bw i s.
Proof.
  unfold TSR.__init__. destruct (any _); [discriminate |]. by intros [= <-].
Qed.

(** X13.  A dictionary that [TSR.from_dict] accepts has the three keys
    [T0_w], [Tw_e] and [Bw]; the keys [manipindex] and [bodyandlink] may be
    missing, and then the TSR gets [-1] and ['NULL']. *)
Theorem from_dict_keys (d : list (string * value)) (self : TSR.t) :
  TSR.from_dict (VDict d) = Ok self ->
  has_key d "T0_w" = true /\ has_key d "Tw_e" = true /\ has_key d "Bw" = true /\
  (has_key d "manipindex" = false -> TSR.manipindex self = NdInt (-1)) /\
  (has_key d "bodyandlink" = false -> TSR.bodyandlink self = NdStr "NULL").
Proof.
  unfold TSR.from_dict. cbn [subscript get]. intros H.
  apply bind_Ok in H as (v0 & Hk0 & H). apply bind_Ok in H as (T0 & _ & H).
  apply bind_Ok in H as (v1 & Hk1 & H). apply bind_Ok in H as (Te & _ & H).
  apply bind_Ok in H as (v2 & Hk2 & H). apply bind_Ok in H as (B & _ & H).
  cbn [mbind exc_bind] in H.
  apply bind_Ok in H as (i & Hi & H).
  apply bind_Ok in H as (s & Hs & H).
  apply init_fields in H as ->. cbn [TSR.manipindex TSR.bodyandlink].
  repeat split; eauto using dict_getitem_has_key.
  - intros Hno. rewrite (dict_get_default _ _ _ Hno) in Hi. by injection Hi as <-.
  - intros Hno. rewrite (dict_get_default _ _ _ Hno) in Hs. by injection Hs as <-.
Qed.

Lemma from_dict_keys_witness :
  let d := [("T0_w", Transform_tolist eye4); ("Tw_e", Transform_tolist eye4);
            ("Bw", array6x2_tolist zeros6x2)] in
  let self := TSR.Build eye4 eye4 zeros6x2 (NdInt (-1)) (NdStr "NULL") in
  TSR.from_dict (VDict d) = Ok self /\
  has_key d "T0_w" = true /\ has_key d "Tw_e" = true /\ has_key d "Bw" = true /\
  (has_key d "manipindex" = false -> TSR.manipindex self = NdInt (-1)) /\
  (has_key d "bodyandlink" = false -> TSR.bodyandlink self = NdStr "NULL").
Proof.
  intros d self. split; [reflexivity |].
  apply (from_dict_keys d self). reflexivity.
Defined.

(** X14.  [from_dict] puts the dictionary of any TSR object through the
    test of the constructor again: the object is rebuilt when all six
    rows of its [Bw] pass, and the [ValueError] of the constructor is
    raised when one does not. *)
Theorem from_dict_revalidates (self : TSR.t) :
  TSR.from_dict (TSR.to_dict self) =
  if any (TSR.range_exceeds <$> rows (TSR.Bw self))
  then Raise (ValueError "Bw range must be within 2*PI")
  else Ok (rebuilt self).
Proof.
  destruct (any _) eqn:Hrange; [| by apply from_dict_to_dict_rebuilt].
  unfold TSR.from_dict, TSR.to_dict.
  cbn -[array4x4 array6x2_of Transform_tolist array6x2_tolist TSR.__init__].
  rewrite !array4x4_tolist.
  cbn -[array4x4 array6x2_of Transform_tolist array6x2_tolist TSR.__init__].
  rewrite array6x2_tolist_inv.
  cbn -[array4x4 array6x2_of Transform_tolist array6x2_tolist TSR.__init__].
  unfold TSR.__init__. by rewrite Hrange.
Qed.

(** X15.  One trip through [to_dict] and [from_dict] reaches a fixed
    point: the rebuilt TSR has the dictionary of the original, and
    reading its own dictionary, JSON text or YAML text gives it back
    exactly. *)
Theorem round_trip_stable (self back : TSR.t) :
  TSR.from_dict (TSR.to_dict self) = Ok back ->
  TSR.to_dict back = TSR.to_dict self /\
  TSR.from_dict (TSR.to_dict back) = Ok back /\
  TSR.from_json (TSR.to_json back) = Ok back /\
  TSR.from_yaml (TSR.to_yaml back) = Ok back.
Proof.
  intros H.
  assert (any (TSR.range_exceeds <$> rows (TSR.Bw self)) = false) as Hrange.
  { destruct (any _) eqn:E; [| reflexivity].
    unfold TSR.from_dict, TSR.to_dict in H.
    cbn -[array4x4 array6x2_of Transform_tolist array6x2_tolist TSR.__init__] in H.
    rewrite !array4x4_tolist in H.
    cbn -[array4x4 array6x2_of Transform_tolist array6x2_tolist TSR.__init__] in H.
    rewrite array6x2_tolist_inv in H.
    cbn -[array4x4 array6x2_of Transform_tolist array6x2_tolist TSR.__init__] in H.
    unfold TSR.__init__ in H. by rewrite E in H. }
  rewrite (from_dict_to_dict_rebuilt self Hrange) in H. injection H as <-.
  assert (TSR.from_dict (TSR.to_dict (rebuilt self)) = Ok (rebuilt self)) as Hback.
  { by rewrite (from_dict_to_dict_rebuilt (rebuilt self) Hrange). }
  split; [reflexivity |]. split; [exact Hback |]. split; exact Hback.
Qed.

Lemma round_trip_stable_witness :
  TSR.from_dict (TSR.to_dict tsr_box) = Ok (rebuilt tsr_box) /\
  TSR.to_dict (rebuilt tsr_box) = TSR.to_dict tsr_box /\
  TSR.from_dict (TSR.to_dict (rebuilt tsr_box)) = Ok (rebuilt tsr_box) /\
  TSR.from_json (TSR.to_json (rebuilt tsr_box)) = Ok (rebuilt tsr_box) /\
  TSR.from_yaml (TSR.to_yaml (rebuilt tsr_box)) = Ok (rebuilt tsr_box).
Proof.
  split; [reflexivity |].
  apply (round_trip_stable tsr_box (rebuilt tsr_box)). reflexivity.
Defined.

(** * Further properties of [TSRChain] *)

(** X16.  The constructor keeps its flags and names, takes [[]] for
    missing [mimicbodyjoints], and lists the single [TSR], when given,
    before the [TSRs], in the order given. *)
Theorem chain_init_fields (sample_start sample_goal constrain : bool)
    (TSR : option nat) (TSRs : option (list nat))
    (mimicbodyname : string) (mimicbodyjoints : option (list Z)) :
  TSRChain.__init__ sample_start sample_goal constrain TSR TSRs mimicbodyname mimicbodyjoints =
  TSRChain.Build sample_start sample_goal constrain mimicbodyname
                 (default [] mimicbodyjoints) (optional TSR ++ default [] TSRs).
Proof.
  unfold TSRChain.__init__.
  destruct TSR as [r|], TSRs as [rs|]; cbn [optional default];
    rewrite ?foldl_append; cbn; by rewrite ?app_nil_r.
Qed.

(** ** Validity reads the boxes only *)

Lemma is_valid_Bw (o o' : TSR.t) (xyzrpy : list float) (ignoreNAN : bool) :
  TSR.Bw o = TSR.Bw o' -> TSR.is_valid o xyzrpy ignoreNAN = TSR.is_valid o' xyzrpy ignoreNAN.
Proof. intros H. unfold TSR.is_valid. by rewrite H. Qed.

Lemma mapM_ext {A B} (f g : A -> exc B) (l : list A) :
  (forall a, f a = g a) -> mapM f l = mapM g l.
Proof.
  intros Hfg. induction l as [|a l IH]; [reflexivity |].
  by rewrite !mapM_cons, Hfg, IH.
Qed.

(** X17.  [TSRChain.is_valid] depends on the [Bw] of the objects only:
    two stores whose objects have the same boxes, position by position,
    give the same answer, whatever [to_transform] has written to their
    [T0_w]. *)
Theorem chain_is_valid_reads_Bw (h h' : store) (self : TSRChain.t)
    (xyzrpy : list (list float)) (ignoreNAN : bool) :
  Forall2 (fun o o' => TSR.Bw o = TSR.Bw o') h h' ->
  TSRChain.is_valid h self xyzrpy ignoreNAN = TSRChain.is_valid h' self xyzrpy ignoreNAN.
Proof.
  intros Hsame. unfold TSRChain.is_valid.
  destruct (negb _); [reflexivity |].
  apply mapM_ext. intros idx. unfold TSRChain.tsr_at.
  destruct (getitem (TSRChain.TSRs self) idx) as [r|e]; [| reflexivity].
  cbn [mbind exc_bind]. unfold deref.
  destruct (h !! r) as [o|] eqn:Ho.
  - destruct (Forall2_lookup_l _ _ _ _ _ Hsame Ho) as (o' & -> & HBw).
    cbn [mbind exc_bind]. destruct (getitem xyzrpy idx); [| reflexivity].
    cbn [mbind exc_bind]. by apply is_valid_Bw.
  - apply lookup_ge_None in Ho. rewrite (Forall2_length _ _ _ Hsame) in Ho.
    apply lookup_ge_None in Ho. by rewrite Ho.
Qed.

Lemma chain_is_valid_reads_Bw_witness :
  let T := translation (fin 1) (fin 2) (fin 3) in
  let h := [tsr_default; tsr_roll_3_4] in
  let h' := [set_T0_w tsr_default T; set_T0_w tsr_roll_3_4 T] in
  Forall2 (fun o o' => TSR.Bw o = TSR.Bw o') h h' /\
  TSRChain.is_valid h chain_0_1 [origin; origin] false =
  TSRChain.is_valid h' chain_0_1 [origin; origin] false.
Proof.
  intros T h h'.
  assert (Forall2 (fun o o' => TSR.Bw o = TSR.Bw o') h h') as Hsame
    by (repeat constructor).
  split; [exact Hsame |].
  exact (chain_is_valid_reads_Bw h h' chain_0_1 [origin; origin] false Hsame).
Defined.

(** ** Sampling, distance and containment of a chain *)

Lemma sample_each_default `{K : Collaborators} (h : store) (self : TSRChain.t) (n : nat)
    (idxs : list nat) : forall g,
  Forall (fun idx => (idx < n)%nat /\ exists o, TSRChain.tsr_at h self idx = Ok o) idxs ->
  exists outs,
    TSRChain.sample_each h self (replicate n TSR.NANBW) idxs g =
      (Ok outs, (g + 6 * length idxs)%nat) /\
    length outs = length idxs /\
    Forall (fun p => length p = 6%nat) outs.
Proof.
  induction idxs as [|idx idxs IH]; intros g Hidx.
  - exists []. cbn. rewrite Nat.add_0_r. by repeat split.
  - apply Forall_cons in Hidx as [[Hlt [o Ho]] Hidx].
    cbn [TSRChain.sample_each]. rewrite Ho.
    unfold getitem. rewrite (lookup_replicate_2 n TSR.NANBW idx Hlt).
    cbn [mbind exc_bind].
    destruct (sample_NANBW_answers o g) as (out & -> & Hout & _).
    destruct (IH (g + 6)%nat) as (outs & -> & Hlen & Hsix); [exact Hidx |].
    exists (out :: outs). cbn [fmap exc_fmap length]. split; [f_equal; lia |].
    split; [by rewrite Hlen |].
    constructor; [exact Hout | exact Hsix].
Qed.

(** X18.  On a chain whose TSRs are all in the store, [sample_xyzrpy]
    with its default argument answers: one pose of six components per
    TSR, for six draws of the generator each. *)
Theorem chain_sample_xyzrpy_default `{K : Collaborators} (h : store) (self : TSRChain.t)
    (g : nat) :
  Forall (fun r => is_Some (h !! r)) (TSRChain.TSRs self) ->
  exists outs,
    TSRChain.sample_xyzrpy h self None g =
      (Ok outs, (g + 6 * length (TSRChain.TSRs self))%nat) /\
    length outs = length (TSRChain.TSRs self) /\
    Forall (fun p => length p = 6%nat) outs.
Proof.
  intros Hrefs. unfold TSRChain.sample_xyzrpy. cbn [default].
  set (n := length (TSRChain.TSRs self)).
  destruct (sample_each_default h self n (seq 0 n) g) as (outs & Hs & Hlen & Hsix).
  - apply Forall_forall. intros idx Hidx. apply elem_of_seq in Hidx as [_ Hidx].
    split; [lia |]. unfold TSRChain.tsr_at, getitem.
    destruct (lookup_lt_is_Some_2 (TSRChain.TSRs self) idx) as [r Hr]; [unfold n in Hidx; lia |].
    rewrite Hr. cbn [mbind exc_bind].
    destruct (proj1 (Forall_lookup _ _) Hrefs idx r Hr) as [o Ho].
    exists o. unfold deref. by rewrite Ho.
  - rewrite length_seq in Hs, Hlen. by exists outs.
Qed.

Lemma chain_sample_xyzrpy_default_witness :
  Forall (fun r => is_Some ([tsr_default; tsr_roll_3_4] !! r)) (TSRChain.TSRs chain_0_1) /\
  exists outs,
    @TSRChain.sample_xyzrpy translations [tsr_default; tsr_roll_3_4] chain_0_1 None 0 =
      (Ok outs, (0 + 6 * length (TSRChain.TSRs chain_0_1))%nat) /\
    length outs = length (TSRChain.TSRs chain_0_1) /\
    Forall (fun p => length p = 6%nat) outs.
Proof.
  assert (Forall (fun r => is_Some ([tsr_default; tsr_roll_3_4] !! r))
                 (TSRChain.TSRs chain_0_1)) as Hrefs.
  { repeat constructor; by eexists. }
  split; [exact Hrefs |].
  exact (@chain_sample_xyzrpy_default translations [tsr_default; tsr_roll_3_4] chain_0_1 0 Hrefs).
Defined.

(** X19.  [TSRChain.sample] never returns a transform, and leaves the
    store as it was. *)
Theorem chain_sample_never_returns `{K : Collaborators} (h : store) (self : TSRChain.t)
    (xyzrpy : option (list (list float))) (g : nat) :
  exists e g', TSRChain.sample h self xyzrpy g = (Raise e, h, g').
Proof.
  unfold TSRChain.sample.
  destruct (TSRChain.sample_xyzrpy h self xyzrpy g) as [[s|e] g']; [| by exists e, g'].
  destruct (chain_to_transform_raises h self s) as [e ->]. by exists e, g'.
Qed.

Lemma chain_objective_raises `{K : Collaborators} (h : store) (self : TSRChain.t)
    (trans : Transform) (xyzrpy : list float) :
  exists e, TSRChain.objective self trans xyzrpy h = (Raise e, h).
Proof.
  unfold TSRChain.objective.
  destruct (reshape xyzrpy _) as [bw_stack|e]; [| by exists e].
  destruct (chain_to_transform_raises h self bw_stack) as [e ->]. by exists e.
Qed.

(** X20.  With an optimizer that starts by evaluating its objective,
    [distance], [contains] and [to_xyzrpy] of a chain never answer, and
    leave the store as it was: the objective runs [to_transform]. *)
Theorem chain_distance_raises `{K : Collaborators} (fmin_l_bfgs_b : optimizer)
    (h : store) (self : TSRChain.t) (trans : Transform) :
  evaluates_initial_guess fmin_l_bfgs_b ->
  exists e,
    TSRChain.distance fmin_l_bfgs_b h self trans = (Raise e, h) /\
    TSRChain.contains fmin_l_bfgs_b h self trans = (Raise e, h) /\
    TSRChain.to_xyzrpy fmin_l_bfgs_b h self trans = (Raise e, h).
Proof.
  intros Hopt.
  assert (exists e, TSRChain.distance fmin_l_bfgs_b h self trans = (Raise e, h)) as [e He].
  { unfold TSRChain.distance.
    destruct (mapM _ _) as [Bws|e]; [| by exists e].
    set (bwinit := concat _). set (bwbounds := concat _).
    destruct (chain_objective_raises h self trans bwinit) as [e He].
    rewrite (Hopt _ _ bwinit bwbounds h h e He). by exists e. }
  exists e. unfold TSRChain.contains, TSRChain.to_xyzrpy. rewrite He. by repeat split.
Qed.

Lemma chain_distance_raises_witness :
  evaluates_initial_guess initial_guess_only /\
  exists e,
    @TSRChain.distance translations initial_guess_only [tsr_shifted; tsr_default] chain_0_1 eye4 =
      (Raise e, [tsr_shifted; tsr_default]) /\
    @TSRChain.contains translations initial_guess_only [tsr_shifted; tsr_default] chain_0_1 eye4 =
      (Raise e, [tsr_shifted; tsr_default]) /\
    @TSRChain.to_xyzrpy translations initial_guess_only [tsr_shifted; tsr_default] chain_0_1 eye4 =
      (Raise e, [tsr_shifted; tsr_default]).
Proof.
  split; [exact initial_guess_only_evaluates |].
  exact (@chain_distance_raises translations initial_guess_only [tsr_shifted; tsr_default]
           chain_0_1 eye4 initial_guess_only_evaluates).
Defined.

(** ** Dictionaries of a chain *)

(** X21.  [TSRChain.from_dict] reads back the dictionary of a chain whose
    TSRs pass the test of the constructor: the flags and names are those
    of the chain, as many TSRs are created, each a new object placed
    after the existing ones, which are left untouched, and the rebuilt
    chain has the dictionary it was read from. *)
Theorem chain_from_dict_round_trip (h : store) (self : TSRChain.t) (d : value) :
  (forall r o, r ∈ TSRChain.TSRs self -> h !! r = Some o ->
               any (TSR.range_exceeds <$> rows (TSR.Bw o)) = false) ->
  TSRChain.to_dict h self = Ok d ->
  exists back created,
    TSRChain.from_dict d h = (Ok back, (h ++ created)%list) /\
    TSRChain.TSRs back = seq (length h) (length (TSRChain.TSRs self)) /\
    length created = length (TSRChain.TSRs self) /\
    TSRChain.sample_start back = TSRChain.sample_start self /\
    TSRChain.sample_goal back = TSRChain.sample_goal self /\
    TSRChain.constrain back = TSRChain.constrain self /\
    TSRChain.mimicbodyname back = TSRChain.mimicbodyname self /\
    TSRChain.mimicbodyjoints back = TSRChain.mimicbodyjoints self /\
    TSRChain.to_dict (h ++ created)%list back = Ok d.
Proof.
  intros Hrange Hd. unfold TSRChain.to_dict in Hd.
  destruct (mapM _ (TSRChain.TSRs self)) as [tsrs|e] eqn:Hm; [| discriminate].
  injection Hd as <-.
  destruct (to_dicts_inv h _ _ Hm) as (os & Hos & ->).
  assert (Forall (fun o => any (TSR.range_exceeds <$> rows (TSR.Bw o)) = false) os) as Hok.
  { apply Forall_forall. intros o Ho.
    apply list_elem_of_lookup in Ho as [i Hi].
    destruct (Forall2_lookup_r _ _ _ _ _ Hos Hi) as (r & Hr & Hro).
    apply (Hrange r o); [by eapply list_elem_of_lookup_2 | exact Hro]. }
  pose proof (Forall2_length _ _ _ Hos) as Hlen.
  unfold TSRChain.from_dict.
  cbn -[TSRChain.from_dicts TSRChain.__init__ mapM].
  rewrite (from_dicts_to_dicts os h Hok).
  cbn -[TSRChain.__init__ mapM].
  rewrite mapM_as_int. cbn -[TSRChain.__init__].
  unfold TSRChain.__init__. rewrite foldl_append. cbn [default TSRChain.TSRs app].
  exists (TSRChain.Build (TSRChain.sample_start self) (TSRChain.sample_goal self)
            (TSRChain.constrain self) (TSRChain.mimicbodyname self)
            (TSRChain.mimicbodyjoints self) (seq (length h) (length os))),
         (rebuilt <$> os).
  split; [reflexivity |]. cbn.
  split; [by rewrite Hlen |]. split; [by rewrite length_fmap, Hlen |].
  repeat (split; [reflexivity |]).
  unfold TSRChain.to_dict. cbn [TSRChain.TSRs].
  pose proof (to_dicts_fresh (rebuilt <$> os) h) as Hfresh.
  rewrite length_fmap in Hfresh. rewrite Hfresh.
  assert (TSR.to_dict <$> (rebuilt <$> os) = TSR.to_dict <$> os) as ->; [| reflexivity].
  rewrite <- list_fmap_compose. apply list_fmap_ext. intros i o _. apply to_dict_rebuilt.
Qed.

Lemma chain_from_dict_round_trip_witness :
  let h := [tsr_default; tsr_roll_3_4] in
  (forall r o, r ∈ TSRChain.TSRs chain_0_1 -> h !! r = Some o ->
               any (TSR.range_exceeds <$> rows (TSR.Bw o)) = false) /\
  exists d, TSRChain.to_dict h chain_0_1 = Ok d /\
  exists back created,
    TSRChain.from_dict d h = (Ok back, (h ++ created)%list) /\
    TSRChain.TSRs back = seq (length h) (length (TSRChain.TSRs chain_0_1)) /\
    length created = length (TSRChain.TSRs chain_0_1) /\
    TSRChain.sample_start back = TSRChain.sample_start chain_0_1 /\
    TSRChain.sample_goal back = TSRChain.sample_goal chain_0_1 /\
    TSRChain.constrain back = TSRChain.constrain chain_0_1 /\
    TSRChain.mimicbodyname back = TSRChain.mimicbodyname chain_0_1 /\
    TSRChain.mimicbodyjoints back = TSRChain.mimicbodyjoints chain_0_1 /\
    TSRChain.to_dict (h ++ created)%list back = Ok d.
Proof.
  intros h.
  assert (forall r o, r ∈ TSRChain.TSRs chain_0_1 -> h !! r = Some o ->
                      any (TSR.range_exceeds <$> rows (TSR.Bw o)) = false) as Hrange.
  { intros r o Hr Ho. cbn in Hr.
    apply elem_of_cons in Hr as [-> | Hr]; [by injection Ho as <- |].
    apply elem_of_cons in Hr as [-> | Hr]; [by injection Ho as <- |].
    by apply elem_of_nil in Hr. }
  split; [exact Hrange |].
  eexists. split; [reflexivity |].
  exact (chain_from_dict_round_trip h chain_0_1 _ Hrange eq_refl).
Defined.

Lemma from_dicts_store (docs : list value) : forall (h h' : store) res,
  TSRChain.from_dicts docs h = (res, h') -> exists created, h' = (h ++ created)%list.
Proof.
  induction docs as [|doc docs IH]; intros h h' res; cbn [TSRChain.from_dicts].
  - intros [= _ <-]. exists []. by rewrite app_nil_r.
  - destruct (TSR.from_dict doc) as [o|e].
    + unfold alloc. destruct (TSRChain.from_dicts docs (h ++ [o])%list) as [out h''] eqn:Hrest.
      intros [= _ <-]. destruct (IH _ _ _ Hrest) as [created ->].
      exists (o :: created). by rewrite <- app_assoc.
    + intros [= _ <-]. exists []. by rewrite app_nil_r.
Qed.

(** X22.  A dictionary that [TSRChain.from_dict] accepts has all six keys
    of a chain, none of them optional, and the objects that were in the
    store before are still there, unchanged, with the new ones after
    them. *)
Theorem chain_from_dict_keys (d : list (string * value)) (h h' : store) (back : TSRChain.t) :
  TSRChain.from_dict (VDict d) h = (Ok back, h') ->
  has_key d "sample_start" = true /\ has_key d "sample_goal" = true /\
  has_key d "constrain" = true /\ has_key d "tsrs" = true /\
  has_key d "mimicbodyname" = true /\ has_key d "mimicbodyjoints" = true /\
  exists created, h' = (h ++ created)%list.
Proof.
  unfold TSRChain.from_dict. cbn [subscript].
  destruct (_ ≫= _) as [[[[ss sg] co] docs]|e] eqn:Hh; [| discriminate].
  apply bind_Ok in Hh as (v0 & Hk0 & Hh). apply bind_Ok in Hh as (? & _ & Hh).
  apply bind_Ok in Hh as (v1 & Hk1 & Hh). apply bind_Ok in Hh as (? & _ & Hh).
  apply bind_Ok in Hh as (v2 & Hk2 & Hh). apply bind_Ok in Hh as (? & _ & Hh).
  apply bind_Ok in Hh as (v3 & Hk3 & Hh). apply bind_Ok in Hh as (? & _ & Hh).
  destruct (TSRChain.from_dicts docs h) as [[rs|e] h1] eqn:Hd; [| discriminate].
  intros [= Ht <-].
  apply bind_Ok in Ht as (v4 & Hk4 & Ht). apply bind_Ok in Ht as (? & _ & Ht).
  apply bind_Ok in Ht as (v5 & Hk5 & Ht).
  repeat split; eauto using dict_getitem_has_key, from_dicts_store.
Qed.

Lemma chain_from_dict_keys_witness :
  let d := [("sample_goal", VBool false); ("sample_start", VBool true);
            ("constrain", VBool false); ("mimicbodyname", VStr "NULL");
            ("mimicbodyjoints", VList []); ("tsrs", VList [TSR.to_dict tsr_box])] in
  let back := TSRChain.Build true false false "NULL" [] [1%nat] in
  TSRChain.from_dict (VDict d) [tsr_default] = (Ok back, [tsr_default; rebuilt tsr_box]) /\
  has_key d "sample_start" = true /\ has_key d "sample_goal" = true /\
  has_key d "constrain" = true /\ has_key d "tsrs" = true /\
  has_key d "mimicbodyname" = true /\ has_key d "mimicbodyjoints" = true /\
  exists created, [tsr_default; rebuilt tsr_box] = ([tsr_default] ++ created)%list.
Proof.
  intros d back. split; [vm_compute; reflexivity |].
  apply (chain_from_dict_keys d [tsr_default] [tsr_default; rebuilt tsr_box] back).
  vm_compute. reflexivity.
Defined.

(** * Properties of [BarrettHand] *)

Lemma set_given_ok (i : nat) (v : option float) (p : list float) :
  (forall x, v = Some x -> (i < length p)%nat) ->
  BarrettHand.set_given i v p = inr (match v with Some x => <[i := x]> p | None => p end).
Proof.
  intros Hi. destruct v as [x|]; [| reflexivity].
  unfold BarrettHand.set_given, BarrettHand.setitem.
  by rewrite (proj2 (Nat.ltb_lt _ _) (Hi x eq_refl)).
Qed.

Lemma set_given_raises (i : nat) (x : float) (p : list float) :
  (length p <= i)%nat ->
  exists msg, BarrettHand.set_given i (Some x) p = inl (BarrettHand.IndexError msg).
Proof.
  intros Hi. unfold BarrettHand.set_given, BarrettHand.setitem.
  rewrite (proj2 (Nat.ltb_ge _ _) Hi). by eexists.
Qed.

Lemma set_given_cases (k : nat) (w : option float) (p : list float) :
  (exists msg, BarrettHand.set_given k w p = inl (BarrettHand.IndexError msg)) \/
  (exists p', BarrettHand.set_given k w p = inr p' /\ length p' = length p).
Proof.
  destruct w as [x|]; [| right; by exists p].
  unfold BarrettHand.set_given, BarrettHand.setitem.
  destruct (Nat.ltb k (length p)); [right | left; by eexists].
  eexists. split; [reflexivity | apply length_insert].
Qed.

Lemma lookup_set (k : nat) (v : option float) (l : list float) (i : nat) :
  (forall x, v = Some x -> (k < length l)%nat) ->
  (match v with Some x => <[k := x]> l | None => l end) !! i =
  match v with
  | Some x => if decide (i = k) then Some x else l !! i
  | None => l !! i
  end.
Proof.
  intros Hk. destruct v as [x|]; [| reflexivity].
  destruct (decide (i = k)) as [-> | Hne].
  - apply list_lookup_insert_eq. exact (Hk x eq_refl).
  - by apply list_lookup_insert_ne.
Qed.

Lemma length_set (k : nat) (v : option float) (l : list float) :
  length (match v with Some x => <[k := x]> l | None => l end) = length l.
Proof. destruct v; [apply length_insert | reflexivity]. Qed.

(** X23.  [MoveHand] commands one preshape and then waits: the preshape
    is the current joint values with each given joint replaced, the others
    kept.  When a given joint lies beyond the joint values the assignment
    raises and nothing has been commanded. *)
Theorem MoveHand_preshape (hand : BarrettHand.t) (dofs : list float)
    (f1 f2 f3 spread timeout : option float) :
  ((forall i v, chosen f1 f2 f3 spread i = Some v -> (i < length dofs)%nat) ->
   exists preshape,
     BarrettHand.MoveHand hand dofs f1 f2 f3 spread timeout =
       (inr tt, [BarrettHand.SetDesired preshape; BarrettHand.WaitForControllers timeout]) /\
     length preshape = length dofs /\
     forall i, preshape !! i =
               match chosen f1 f2 f3 spread i with Some v => Some v | None => dofs !! i end) /\
  ((exists i v, chosen f1 f2 f3 spread i = Some v /\ (length dofs <= i)%nat) ->
   exists msg,
     BarrettHand.MoveHand hand dofs f1 f2 f3 spread timeout =
       (inl (BarrettHand.IndexError msg), [])).
Proof.
  split.
  - intros Hin. unfold BarrettHand.MoveHand.
    assert (forall x, f1 = Some x -> (0 < length dofs)%nat) as H0
      by (intros x Hx; apply (Hin 0%nat x); by rewrite Hx).
    assert (forall x, f2 = Some x -> (1 < length dofs)%nat) as H1
      by (intros x Hx; apply (Hin 1%nat x); by rewrite Hx).
    assert (forall x, f3 = Some x -> (2 < length dofs)%nat) as H2
      by (intros x Hx; apply (Hin 2%nat x); by rewrite Hx).
    assert (forall x, spread = Some x -> (3 < length dofs)%nat) as H3
      by (intros x Hx; apply (Hin 3%nat x); by rewrite Hx).
    rewrite (set_given_ok 0 f1 dofs H0).
    rewrite set_given_ok by (intros x Hx; rewrite length_set; by apply (H1 x)).
    rewrite set_given_ok by (intros x Hx; rewrite !length_set; by apply (H2 x)).
    rewrite set_given_ok by (intros x Hx; rewrite !length_set; by apply (H3 x)).
    eexists. split; [reflexivity |]. split; [by rewrite !length_set |].
    intros i.
    rewrite lookup_set by (intros x Hx; rewrite !length_set; by apply (H3 x)).
    rewrite lookup_set by (intros x Hx; rewrite !length_set; by apply (H2 x)).
    rewrite lookup_set by (intros x Hx; rewrite !length_set; by apply (H1 x)).
    rewrite lookup_set by exact H0.
    destruct i as [|[|[|[|i]]]]; cbn [chosen];
      destruct f1, f2, f3, spread; reflexivity.
  - intros (i & v & Hv & Hout). unfold BarrettHand.MoveHand.
    destruct (set_given_cases 0 f1 dofs) as [[msg E1] | (p1 & E1 & L1)]; rewrite E1;
      [by exists msg |].
    destruct (set_given_cases 1 f2 p1) as [[msg E2] | (p2 & E2 & L2)]; rewrite E2;
      [by exists msg |].
    destruct (set_given_cases 2 f3 p2) as [[msg E3] | (p3 & E3 & L3)]; rewrite E3;
      [by exists msg |].
    destruct (set_given_cases 3 spread p3) as [[msg E4] | (p4 & E4 & L4)]; rewrite E4;
      [by exists msg |].
    exfalso.
    destruct i as [|[|[|[|i]]]]; cbn [chosen] in Hv; subst; try discriminate.
    + destruct (set_given_raises 0 v dofs) as [msg E]; [lia | congruence].
    + destruct (set_given_raises 1 v p1) as [msg E]; [lia | congruence].
    + destruct (set_given_raises 2 v p2) as [msg E]; [lia | congruence].
    + destruct (set_given_raises 3 v p3) as [msg E]; [lia | congruence].
Qed.

Lemma MoveHand_preshape_witness :
  let dofs := [fin 1; fin 2; fin 3; fin (1 # 2)] in
  let some := Some (fin (1 # 4)) in
  (forall i v, chosen None some None None i = Some v -> (i < length dofs)%nat) /\
  (exists preshape,
     BarrettHand.MoveHand hand_on_hardware dofs None some None None None =
       (inr tt, [BarrettHand.SetDesired preshape; BarrettHand.WaitForControllers None]) /\
     length preshape = length dofs /\
     forall i, preshape !! i =
               match chosen None some None None i with Some v => Some v | None => dofs !! i end) /\
  (exists i v, chosen None None None some i = Some v /\ (length [fin 1; fin 2] <= i)%nat) /\
  (exists msg,
     BarrettHand.MoveHand hand_on_hardware [fin 1; fin 2] None None None some None =
       (inl (BarrettHand.IndexError msg), [])).
Proof.
  intros dofs some.
  assert (forall i v, chosen None some None None i = Some v -> (i < length dofs)%nat) as Hin.
  { intros [|[|[|[|i]]]] v; cbn; try discriminate. lia. }
  assert (exists i v, chosen None None None some i = Some v /\ (length [fin 1; fin 2] <= i)%nat)
    as Hout.
  { exists 3%nat, (fin (1 # 4)). split; [reflexivity | cbn; lia]. }
  split; [exact Hin |].
  split; [exact (proj1 (MoveHand_preshape hand_on_hardware dofs None some None None None) Hin) |].
  split; [exact Hout |].
  exact (proj2 (MoveHand_preshape hand_on_hardware [fin 1; fin 2] None None None some None) Hout).
Defined.

(** X24.  In simulation [OpenHand] and [CloseHand] ignore the spread and
    the joint values: they never raise and never command a preshape.  On
    hardware, with four joints, they command the three fingers to 0.0 and
    to 3.2, with the spread given or, without one, the current spread. *)
Theorem OpenHand_CloseHand (hand : BarrettHand.t) (timeout : option float) :
  (BarrettHand.simulated hand = true ->
   forall dofs spread,
     fst (BarrettHand.OpenHand hand dofs spread timeout) = inr tt /\
     fst (BarrettHand.CloseHand hand dofs spread timeout) = inr tt /\
     existsb touches_hardware (snd (BarrettHand.OpenHand hand dofs spread timeout)) = false /\
     existsb touches_hardware (snd (BarrettHand.CloseHand hand dofs spread timeout)) = false /\
     BarrettHand.OpenHand hand dofs spread timeout = BarrettHand.OpenHand hand [] None timeout /\
     BarrettHand.CloseHand hand dofs spread timeout = BarrettHand.CloseHand hand [] None timeout) /\
  (BarrettHand.simulated hand = false ->
   forall d0 d1 d2 d3 spread,
     BarrettHand.OpenHand hand [d0; d1; d2; d3] spread timeout =
       (inr tt, [BarrettHand.SetDesired [fin 0; fin 0; fin 0; default d3 spread];
                 BarrettHand.WaitForControllers timeout]) /\
     BarrettHand.CloseHand hand [d0; d1; d2; d3] spread timeout =
       (inr tt, [BarrettHand.SetDesired
                   [fin (32 # 10); fin (32 # 10); fin (32 # 10); default d3 spread];
                 BarrettHand.WaitForControllers timeout])).
Proof.
  unfold BarrettHand.OpenHand, BarrettHand.CloseHand.
  split; intros -> .
  - intros dofs spread. by repeat split.
  - intros d0 d1 d2 d3 [s|]; by split.
Qed.

Lemma OpenHand_CloseHand_witness :
  BarrettHand.simulated hand_in_simulation = true /\
  BarrettHand.simulated hand_on_hardware = false /\
  BarrettHand.OpenHand hand_in_simulation [fin 1] (Some (fin 2)) None =
    BarrettHand.OpenHand hand_in_simulation [] None None /\
  BarrettHand.CloseHand hand_on_hardware [fin 1; fin 1; fin 1; fin (1 # 2)] None None =
    (inr tt, [BarrettHand.SetDesired [fin (32 # 10); fin (32 # 10); fin (32 # 10); fin (1 # 2)];
              BarrettHand.WaitForControllers None]).
Proof.
  split; [reflexivity |]. split; [reflexivity |]. split.
  - apply (proj1 (OpenHand_CloseHand hand_in_simulation None) eq_refl [fin 1] (Some (fin 2))).
  - apply (proj2 (OpenHand_CloseHand hand_on_hardware None) eq_refl
             (fin 1) (fin 1) (fin 1) (fin (1 # 2)) None).
Defined.

(** X25.  A hand built by the constructor owns each sensor exactly when
    it is not simulated, and none of its methods looks for a sensor that
    is not there: the five methods that read a sensor never raise.  A
    simulated hand answers from constants and makes no call at all in
    [ResetHand], [GetState], [GetStrain] and [GetBreakaway]; likewise a
    simulated force/torque sensor in [GetForceTorque] and
    [TareForceTorqueSensor]. *)
Theorem constructed_hand_sensors (sim ft_sim : bool) (name owd_namespace bhd_namespace : string)
    (indices : list Z) (reply : BarrettHand.sensor -> string -> string)
    (force torque : BarrettHand.sensor -> value) :
  let hand := fst (BarrettHand.__init__ sim name indices owd_namespace bhd_namespace ft_sim) in
  (is_Some (BarrettHand.handstate_sensor hand) <-> sim = false) /\
  (is_Some (BarrettHand.ft_sensor hand) <-> ft_sim = false) /\
  is_inr (fst (BarrettHand.GetState reply hand)) = true /\
  is_inr (fst (BarrettHand.GetStrain force hand)) = true /\
  is_inr (fst (BarrettHand.GetBreakaway torque hand)) = true /\
  is_inr (fst (BarrettHand.GetForceTorque force torque hand)) = true /\
  is_inr (fst (BarrettHand.TareForceTorqueSensor hand)) = true /\
  (sim = true ->
   BarrettHand.ResetHand hand = (inr tt, []) /\
   BarrettHand.GetState reply hand = (inr "done", []) /\
   BarrettHand.GetStrain force hand = (inr BarrettHand.zeros3, []) /\
   BarrettHand.GetBreakaway torque hand =
     (inr (VList [VBool false; VBool false; VBool false]), [])) /\
  (ft_sim = true ->
   BarrettHand.GetForceTorque force torque hand =
     (inr (BarrettHand.zeros3, BarrettHand.zeros3), []) /\
   BarrettHand.TareForceTorqueSensor hand = (inr tt, [])).
Proof.
  destruct sim, ft_sim; cbn; repeat split; try done;
    try (intros [? [=]]); try (by eexists).
Qed.

(** * The errors of [to_transform] *)

(** X26.  [TSR.to_transform] raises a [ValueError] on every pose: its own,
    about the length, on a pose that has not six components, and the one
    numpy raises for the truth value of an array on a pose that has. *)
Theorem to_transform_errors `{K : Collaborators} (self : TSR.t) (xyzrpy : list float) :
  TSR.to_transform self xyzrpy =
  Raise (ValueError
    (if Nat.eqb (length xyzrpy) 6
     then "The truth value of an array with more than one element is ambiguous. Use a.any() or a.all()"
     else "vals must be of length 6")).
Proof.
  unfold TSR.to_transform.
  destruct (Nat.eqb (length xyzrpy) 6) eqn:Hlen; cbn [negb]; [| reflexivity].
  apply Nat.eqb_eq, length_six in Hlen as (a & b & c & d & e & f & ->).
  by rewrite is_valid_six.
Qed.

Lemma mapM_length {A B} (f : A -> exc B) (l : list A) : forall r,
  mapM f l = Ok r -> length r = length l.
Proof.
  induction l as [|a l IH]; intros r.
  - by intros [= <-].
  - rewrite mapM_cons. intros H.
    apply bind_Ok in H as (b & _ & H). apply bind_Ok in H as (k & Hk & H).
    injection H as <-. cbn. by rewrite (IH k Hk).
Qed.

Lemma validate_loop (e : exn) (suf : list (list bool)) : forall pre : list (list bool),
  mapM (fun idx => c ← getitem (pre ++ suf)%list idx;
                   if negb (all c) then Raise e else Ok tt)
       (seq (length pre) (length suf)) =
  if forallb all suf then Ok (replicate (length suf) tt) else Raise e.
Proof.
  induction suf as [|c suf IH]; intros pre; [reflexivity |].
  cbn [length seq forallb]. rewrite mapM_cons.
  assert (getitem (pre ++ c :: suf)%list (length pre) = Ok c) as ->.
  { unfold getitem. by rewrite (list_lookup_middle pre suf c (length pre) eq_refl). }
  cbn [mbind exc_bind].
  destruct (all c); cbn [negb andb]; [| reflexivity].
  specialize (IH (pre ++ [c])%list).
  rewrite <- app_assoc, length_app, Nat.add_1_r in IH. cbn [app] in IH.
  cbn [mbind exc_bind]. rewrite IH. by destruct (forallb all suf).
Qed.

(** X27.  [TSRChain.to_transform] checks before it writes: a pose list of
    the wrong length is refused as in [is_valid], and a pose list in which
    some pose fails one of its checks is refused with ['Invalid xyzrpy'];
    in both cases the store is as it was. *)
Theorem chain_to_transform_checks_first `{K : Collaborators} (h : store) (self : TSRChain.t)
    (xyzrpy : list (list float)) :
  (length xyzrpy <> length (TSRChain.TSRs self) ->
   TSRChain.to_transform h self xyzrpy =
     (Raise (TypeError "exceptions must derive from BaseException"), h)) /\
  (forall check,
     TSRChain.is_valid h self xyzrpy false = Ok check ->
     forallb all check = false ->
     TSRChain.to_transform h self xyzrpy = (Raise (ValueError "Invalid xyzrpy"), h)).
Proof.
  unfold TSRChain.to_transform. split.
  - intros Hlen. unfold TSRChain.is_valid.
    apply Nat.eqb_neq in Hlen. by rewrite Hlen.
  - intros check Hcheck Hbad. rewrite Hcheck. cbn [mbind exc_bind].
    assert (length check = length (TSRChain.TSRs self)) as <-.
    { unfold TSRChain.is_valid in Hcheck. destruct (negb _); [discriminate |].
      rewrite (mapM_length _ _ _ Hcheck). apply length_seq. }
    pose proof (validate_loop (ValueError "Invalid xyzrpy") check []) as Hloop.
    cbn [app length] in Hloop. rewrite Hloop. by rewrite Hbad.
Qed.

Lemma chain_to_transform_checks_first_witness :
  let h := [tsr_default; tsr_roll_3_4] in
  (length [origin] <> length (TSRChain.TSRs chain_0_1) /\
   @TSRChain.to_transform translations h chain_0_1 [origin] =
     (Raise (TypeError "exceptions must derive from BaseException"), h)) /\
  (TSRChain.is_valid h chain_0_1 [origin; origin] false =
     Ok [[true; true; true; true; true; true]; [true; true; true; false; true; true]] /\
   @TSRChain.to_transform translations h chain_0_1 [origin; origin] =
     (Raise (ValueError "Invalid xyzrpy"), h)).
Proof.
  intros h. split.
  - split; [discriminate |].
    apply (proj1 (@chain_to_transform_checks_first translations h chain_0_1 [origin])).
    discriminate.
  - split; [vm_compute; reflexivity |].
    apply (proj2 (@chain_to_transform_checks_first translations h chain_0_1 [origin; origin])
             [[true; true; true; true; true; true]; [true; true; true; false; true; true]]);
      vm_compute; reflexivity.
Defined.
